(** * Fliinow Partner API client: the request lifecycle

    A shallow embedding of the TypeScript client (class [FliinowError],
    class [OperationsApi], class [FliinowClient]) and the properties of its
    single HTTP request function.

    Conventions of the model.
    - A JavaScript string is represented by the [string] of its bytes in
      WTF-8: UTF-8, with an unpaired surrogate as the three bytes
      [ED A0..BF 80..BF].
    - A JavaScript number is represented by [number]: [NaN], an infinity,
      or [Num z], the Number value of the integer [z].  That is [z]
      itself up to [2^53] in magnitude and the nearest double beyond
      ([Double.of_Z]); [Number_toString] prints it as [Number::toString]
      does.  Numbers with a fractional part are not represented; negative
      zero is [Num 0].
    - The platform ([fetch], [Response], timers, [AbortController]) is a
      [World]: it decides how [fetch] and [response.json()] settle, and it
      records every platform call of the client in a trace. *)

From Stdlib Require Import ZArith List String Ascii Bool Lia.
From Stdlib Require Import DecimalString DecimalPos.
Import ListNotations.
Local Open Scope string_scope.
Local Open Scope Z_scope.

(* ------------------------------------------------------------------ *)
(** ** Strings *)

Module Str.


(** A non-empty string is truthy. *)
Definition truthy (s : string) : bool :=
  match s with EmptyString => false | String _ _ => true end.

Fixpoint join (sep : string) (l : list string) : string :=
  match l with
  | [] => ""
  | [x] => x
  | x :: rest => x ++ sep ++ join sep rest
  end.

End Str.

(* ------------------------------------------------------------------ *)
(** ** Numbers and primitive values *)

Inductive number : Type :=
  | NaN
  | Num (z : Z)
  | Infinity (negative : bool).

Module Double.

(** Up to [2^53] in magnitude every integer is a Number value. *)
Definition max_safe : Z := 9007199254740992.

(** The Number value of an integer: beyond [2^53] the integer is rounded
    to 53 significant bits, ties to even, and it overflows to an infinity
    from [2^1024]. *)
Definition of_Z (z : Z) : number :=
  let a := Z.abs z in
  if a <=? max_safe then Num z
  else
    let e := Z.log2 a - 52 in
    let q := Z.shiftr a e in
    let r := a - Z.shiftl q e in
    let half := Z.shiftl 1 (e - 1) in
    let q' := if (half <? r) || ((r =? half) && Z.odd q) then q + 1 else q in
    let x := Z.shiftl q' e in
    if Z.shiftl 1 1024 <=? x then Infinity (z <? 0)
    else Num (Z.sgn z * x).

Definition decimal (z : Z) : string := NilZero.string_of_int (Z.to_int z).

Definition rounds_to (x c : Z) : bool :=
  match of_Z c with
  | Num y => y =? x
  | _ => false
  end.

(** The integer with the fewest significant digits whose Number value is
    [x]: at each precision [p] (a power of ten, coarsest first) the two
    multiples of [p] around [x] are tried, and the closer one is taken
    (the even one on a tie). *)
Fixpoint shortest (tries : nat) (p x : Z) : Z :=
  match tries with
  | O => x
  | S t =>
      let lo := (x / p) * p in
      let hi := lo + p in
      match rounds_to x lo, rounds_to x hi with
      | true, true =>
          if x - lo <? hi - x then lo
          else if hi - x <? x - lo then hi
          else if Z.even (lo / p) then lo else hi
      | true, false => lo
      | false, true => hi
      | false, false => if p =? 1 then x else shortest t (p / 10) x
      end
  end.

Fixpoint strip_zeros (s : string) : string :=
  match s with
  | EmptyString => ""
  | String c r =>
      match strip_zeros r with
      | EmptyString => if Ascii.eqb c "0" then "" else String c ""
      | r' => String c r'
      end
  end.

(** [Number::toString] of a positive integral double [x]: its shortest
    digits, followed by zeros up to 21 digits and in exponent form
    beyond. *)
Definition print (x : Z) : string :=
  let n := Z.of_nat (String.length (decimal x)) in
  let c := shortest 17 (10 ^ (n - 1)) x in
  let digits := decimal c in
  let m := Z.of_nat (String.length digits) in
  if m <=? 21 then digits
  else
    match strip_zeros digits with
    | String d EmptyString => String d "" ++ "e+" ++ decimal (m - 1)
    | String d rest => String d "" ++ "." ++ rest ++ "e+" ++ decimal (m - 1)
    | EmptyString => digits
    end.

End Double.

(** [Number::toString] (radix 10). *)
Definition Number_toString (n : number) : string :=
  match n with
  | NaN => "NaN"
  | Infinity neg => if neg then "-Infinity" else "Infinity"
  | Num z =>
      if Z.abs z <=? Double.max_safe then Double.decimal z
      else
        match Double.of_Z z with
        | Num x => (if x <? 0 then "-" else "") ++ Double.print (Z.abs x)
        | Infinity neg => if neg then "-Infinity" else "Infinity"
        | NaN => "NaN"
        end
  end.

Inductive prim : Type :=
  | PUndefined
  | PNull
  | PBool (b : bool)
  | PNumber (n : number)
  | PString (s : string).

(** [String(p)] on a primitive. *)
Definition String_prim (p : prim) : string :=
  match p with
  | PUndefined => "undefined"
  | PNull => "null"
  | PBool true => "true"
  | PBool false => "false"
  | PNumber n => Number_toString n
  | PString s => s
  end.

(** Plain data: primitives, arrays and objects (an object is the list of
    its own properties in [Object.entries] order; the keys of an object
    are distinct). *)
#[warnings="-register-all"]
Inductive value : Type :=
  | VPrim (p : prim)
  | VArray (items : list value)
  | VObject (fields : list (string * value)).

Definition undefined : value := VPrim PUndefined.
Definition VString (s : string) : value := VPrim (PString s).

(** Truthiness, as tested by [body ? ... : ...]. *)
Definition truthy (v : value) : bool :=
  match v with
  | VPrim PUndefined | VPrim PNull => false
  | VPrim (PBool b) => b
  | VPrim (PNumber NaN) => false
  | VPrim (PNumber (Num z)) => negb (z =? 0)
  | VPrim (PNumber (Infinity _)) => true
  | VPrim (PString s) => Str.truthy s
  | VArray _ | VObject _ => true
  end.

Fixpoint lookup (k : string) (fields : list (string * value)) : option value :=
  match fields with
  | [] => None
  | (k', v) :: rest => if String.eqb k k' then Some v else lookup k rest
  end.

(** [ToString(v)].  [None] is a thrown TypeError: an object with an own
    property [toString] (never callable in plain data) has no primitive
    value.  Arrays print through [Array.prototype.join]. *)
Fixpoint ToString (v : value) : option string :=
  match v with
  | VPrim p => Some (String_prim p)
  | VArray items =>
      let fix elems (l : list value) : option (list string) :=
        match l with
        | [] => Some []
        | x :: rest =>
            match (match x with
                   | VPrim PUndefined | VPrim PNull => Some ""
                   | _ => ToString x
                   end), elems rest with
            | Some s, Some ss => Some (s :: ss)
            | _, _ => None
            end
        end in
      option_map (Str.join ",") (elems items)
  | VObject fields =>
      match lookup "toString" fields with
      | Some _ => None
      | None => Some "[object Object]"
      end
  end.

(* ------------------------------------------------------------------ *)
(** ** [parseInt(s, 10)] *)

Module ParseInt.

Definition is_digit (c : ascii) : bool :=
  let n := N_of_ascii c in (48 <=? n)%N && (n <=? 57)%N.

Definition digit_value (c : ascii) : Z := Z.of_N (N_of_ascii c) - 48.

(** The white space of [StrWhiteSpaceChar] in one byte: TAB, LF, VT, FF,
    CR, SP. *)
Definition is_ws1 (c : ascii) : bool :=
  let n := N_of_ascii c in
  ((9 <=? n)%N && (n <=? 13)%N) || (n =? 32)%N.

(** Drop leading white space and line terminators.  Beyond ASCII these are
    U+00A0 (C2 A0), U+1680 (E1 9A 80), U+2000..U+200A, U+2028, U+2029,
    U+202F (E2 80 xx), U+205F (E2 81 9F), U+3000 (E3 80 80) and
    U+FEFF (EF BB BF). *)
Fixpoint trimStart (s : string) : string :=
  match s with
  | EmptyString => s
  | String c r =>
      if is_ws1 c then trimStart r
      else
        match r with
        | String c2 r2 =>
            let n := N_of_ascii c in
            let n2 := N_of_ascii c2 in
            if ((n =? 194) && (n2 =? 160))%N then trimStart r2
            else
              match r2 with
              | String c3 r3 =>
                  let n3 := N_of_ascii c3 in
                  if (((n =? 225) && (n2 =? 154) && (n3 =? 128))
                      || ((n =? 226) && (n2 =? 128)
                          && ((128 <=? n3) && (n3 <=? 138)
                              || (n3 =? 168) || (n3 =? 169) || (n3 =? 175)))
                      || ((n =? 226) && (n2 =? 129) && (n3 =? 159))
                      || ((n =? 227) && (n2 =? 128) && (n3 =? 128))
                      || ((n =? 239) && (n2 =? 187) && (n3 =? 191)))%N
                  then trimStart r3
                  else s
              | EmptyString => s
              end
        | EmptyString => s
        end
  end.

(** The longest prefix of decimal digits, read left to right:
    [(seen, acc)] is whether a digit was read and the value so far. *)
Fixpoint digits (s : string) (seen : bool) (acc : Z) : bool * Z :=
  match s with
  | String c r =>
      if is_digit c then digits r true (10 * acc + digit_value c)
      else (seen, acc)
  | EmptyString => (seen, acc)
  end.

Definition parseInt (input : string) : number :=
  let trimmed := trimStart input in
  let '(sign, rest) :=
    match trimmed with
    | String "-" r => (-1, r)
    | String "+" r => (1, r)
    | _ => (1, trimmed)
    end in
  match digits rest false 0 with
  | (false, _) => NaN
  | (true, mathInt) => Double.of_Z (sign * mathInt)
  end.

End ParseInt.

(* ------------------------------------------------------------------ *)
(** ** Thrown values *)

(** An instance of [Error] that is not a [FliinowError]: its class
    ([Error], [TypeError], [SyntaxError], [DOMException], ...), its [name]
    and its [message]. *)
Record ErrorObject : Type := mkError {
  error_class : string;
  error_name : string;
  error_message : string
}.

(** [new Error(message)]. *)
Definition new_Error (message : string) : ErrorObject :=
  mkError "Error" "Error" message.

(** The TypeError of the engine (property read on [null], conversion of an
    object without primitive value); the message text is the engine's. *)
Definition TypeError (message : string) : ErrorObject :=
  mkError "TypeError" "TypeError" message.

(** The wire shape [ErrorResponse] is a cast ([data as ErrorResponse]):
    the fields of a [FliinowError] hold whatever the decoded body holds. *)
Record FliinowError : Type := mkFliinowError {
  message : string;
  name : string;
  statusCode : Z;
  code : value;
  path : value;
  requestId : value;
  retryAfter : option number
}.

Inductive thrown : Type :=
  | ThrownFliinowError (e : FliinowError)   (* instanceof FliinowError *)
  | ThrownError (e : ErrorObject)           (* instanceof Error only *)
  | ThrownValue (v : value).                (* not an Error *)

Definition instanceof_FliinowError (t : thrown) : bool :=
  match t with ThrownFliinowError _ => true | _ => false end.

Definition instanceof_Error (t : thrown) : bool :=
  match t with ThrownValue _ => false | _ => true end.

(* ------------------------------------------------------------------ *)
(** ** The platform *)

Inductive Method : Type := GET | POST | PUT | DELETE.

(** The text [JSON.stringify(v)] of a truthy body. *)
Inductive json_text : Type := JSON_stringify (v : value).

Record RequestInit : Type := mkInit {
  init_method : Method;
  init_headers : list (string * string);
  init_body : option json_text
}.

(** How an awaited platform promise settles. *)
Inductive settles (A : Type) : Type :=
  | Fulfils (a : A)
  | Rejects (t : thrown)
  | Stalls.
Arguments Fulfils {A} a.
Arguments Rejects {A} t.
Arguments Stalls {A}.

Record Response : Type := mkResponse {
  status : Z;
  headers_get : string -> option string;     (* response.headers.get(name) *)
  json_settles : settles value               (* response.json() *)
}.

(** [response.ok]: the status is in the range 200-299. *)
Definition ok (r : Response) : bool :=
  (200 <=? status r) && (status r <=? 299).

Inductive event : Type :=
  | EvSetTimeout (id : nat) (ms : number)
  | EvFetch (url : string) (init : RequestInit)
  | EvTimerFired (id : nat)
  | EvAbort
  | EvClearTimeout (id : nat)
  | EvJson.

Record World : Type := mkWorld {
  fetch_settles : string -> RequestInit -> settles Response;
  next_timer : nat;
  scheduled : list nat;        (* timers set and neither fired nor cleared *)
  trace : list event           (* most recent first *)
}.

Definition log (e : event) (w : World) : World :=
  mkWorld (fetch_settles w) (next_timer w) (scheduled w) (e :: trace w).

Definition unschedule (id : nat) (w : World) : World :=
  mkWorld (fetch_settles w) (next_timer w)
          (filter (fun i => negb (Nat.eqb i id)) (scheduled w)) (trace w).

(** The abort reason of [controller.abort()]. *)
Definition AbortError : ErrorObject :=
  mkError "DOMException" "AbortError" "This operation was aborted".

(* ------------------------------------------------------------------ *)
(** ** Asynchronous computations over the platform *)

Inductive outcome (A : Type) : Type :=
  | Returns (a : A)
  | Throws (t : thrown)
  | Pending.             (* the promise never settles *)
Arguments Returns {A} a.
Arguments Throws {A} t.
Arguments Pending {A}.

Definition Async (A : Type) : Type := World -> outcome A * World.

Definition ret {A} (a : A) : Async A := fun w => (Returns a, w).
Definition throw {A} (t : thrown) : Async A := fun w => (Throws t, w).

Definition bind {A B} (m : Async A) (k : A -> Async B) : Async B :=
  fun w =>
    match m w with
    | (Returns a, w') => k a w'
    | (Throws t, w') => (Throws t, w')
    | (Pending, w') => (Pending, w')
    end.

(** [try { body } catch (error) { handler }]. *)
Definition try_catch {A} (body : Async A) (handler : thrown -> Async A)
  : Async A :=
  fun w =>
    match body w with
    | (Throws t, w') => handler t w'
    | r => r
    end.

Declare Scope async_scope.
Delimit Scope async_scope with async.
Notation "x <- m ;; k" := (bind m (fun x => k))
  (at level 61, m at next level, right associativity) : async_scope.
Notation "m ;; k" := (bind m (fun _ => k))
  (at level 61, right associativity) : async_scope.
Local Open Scope async_scope.

(** [setTimeout(() => controller.abort(), ms)]. *)
Definition setTimeout_abort (ms : number) : Async nat :=
  fun w =>
    let id := next_timer w in
    (Returns id,
     mkWorld (fetch_settles w) (S id) (id :: scheduled w)
             (EvSetTimeout id ms :: trace w)).

Definition clearTimeout (id : nat) : Async unit :=
  fun w => (Returns tt, log (EvClearTimeout id) (unschedule id w)).

(** [await fetch(url, { ..., signal })] while the timer [id] runs its
    callback [controller.abort()].  A fetch that does not settle by itself
    is still in flight when the timer fires: the callback aborts the
    signal and the fetch rejects with the abort reason.  With no such
    timer scheduled nothing ever settles it. *)
Definition fetch (id : nat) (url : string) (init : RequestInit)
  : Async Response :=
  fun w =>
    let w1 := log (EvFetch url init) w in
    match fetch_settles w url init with
    | Fulfils r => (Returns r, w1)
    | Rejects t => (Throws t, w1)
    | Stalls =>
        if existsb (Nat.eqb id) (scheduled w) then
          (Throws (ThrownError AbortError),
           log EvAbort (log (EvTimerFired id) (unschedule id w1)))
        else (Pending, w1)
    end.

(** [await response.json()]. *)
Definition Response_json (r : Response) : Async value :=
  fun w =>
    let w1 := log EvJson w in
    match json_settles r with
    | Fulfils v => (Returns v, w1)
    | Rejects t => (Throws t, w1)
    | Stalls => (Pending, w1)
    end.

(* ------------------------------------------------------------------ *)
(** ** class FliinowError *)

(** [o.k] for the property names the constructor reads ([message],
    [error], [path], [requestId]; none is inherited from a built-in
    prototype).  [None] is the TypeError of a read on [null] or
    [undefined]. *)
Definition property (o : value) (k : string) : option value :=
  match o with
  | VPrim PUndefined | VPrim PNull => None
  | VObject fields =>
      Some (match lookup k fields with Some v => v | None => undefined end)
  | VPrim _ | VArray _ => Some undefined
  end.

(** [new FliinowError(response, statusCode, retryAfter)]; [inr] is the
    error thrown while constructing.  [super(response.message)] converts a
    message other than [undefined] with [ToString]; without a message the
    inherited [Error.prototype.message] is the empty string. *)
Definition new_FliinowError
    (response : value) (statusCode : Z) (retryAfter : option number)
  : FliinowError + ErrorObject :=
  match property response "message" with
  | None =>
      inr (TypeError "Cannot read properties of null (reading 'message')")
  | Some m =>
      match (match m with
             | VPrim PUndefined => Some ""
             | _ => ToString m
             end) with
      | None => inr (TypeError "Cannot convert object to primitive value")
      | Some msg =>
          let get k :=
            match property response k with
            | Some v => v
            | None => undefined
            end in
          inl {| message := msg;
                 name := "FliinowError";
                 statusCode := statusCode;
                 code := get "error";
                 path := get "path";
                 requestId := get "requestId";
                 retryAfter := retryAfter |}
      end
  end.

(* ------------------------------------------------------------------ *)
(** ** class FliinowClient *)

(** [FliinowClientConfig]; an optional field that is [undefined] (or
    [null]) is [None]. *)
Record FliinowClientConfig : Type := mkConfig {
  config_apiKey : string;
  config_sandbox : option bool;
  config_timeout : option number;
  config_baseUrl : option string
}.

Record FliinowClient : Type := mkClient {
  baseUrl : string;
  apiKey : string;
  timeout : number
}.

Definition demo_url : string := "https://demo.fliinow.com/integration-api/v1".
Definition production_url : string :=
  "https://app.fliinow.com/integration-api/v1".

(** The constructor. *)
Definition new_FliinowClient (config : FliinowClientConfig) : FliinowClient :=
  {| apiKey := config_apiKey config;
     timeout :=
       match config_timeout config with      (* config.timeout ?? 30000 *)
       | Some t => t
       | None => Num 30000
       end;
     baseUrl :=
       match config_baseUrl config with      (* if (config.baseUrl) *)
       | Some (String c u) => String c u
       | _ =>
           match config_sandbox config with  (* else if (config.sandbox) *)
           | Some true => demo_url
           | _ => production_url
           end
       end |}.

Definition request_headers (this : FliinowClient) : list (string * string) :=
  [ ("X-Fliinow-API-Key", apiKey this);
    ("Content-Type", "application/json");
    ("Accept", "application/json") ].

Definition timeout_message (this : FliinowClient) : string :=
  "Request timeout after " ++ Number_toString (timeout this) ++ "ms".

(** The [try] block of [request]. *)
Definition request_try (this : FliinowClient) (timeoutId : nat)
    (url : string) (method : Method) (headers : list (string * string))
    (body : value) : Async value :=
  response <- fetch timeoutId url
                (mkInit method headers
                   (if truthy body then Some (JSON_stringify body) else None)) ;;
  clearTimeout timeoutId ;;
  if status response =? 204 then ret undefined
  else
    data <- Response_json response ;;
    if negb (ok response) then
      let retryAfter := headers_get response "Retry-After" in
      match new_FliinowError data (status response)
              (match retryAfter with
               | Some (String c s) => Some (ParseInt.parseInt (String c s))
               | _ => None
               end) with
      | inl e => throw (ThrownFliinowError e)
      | inr e => throw (ThrownError e)
      end
    else ret data.

(** The [catch] clause of [request]. *)
Definition request_catch (this : FliinowClient) (timeoutId : nat)
    (error : thrown) : Async value :=
  clearTimeout timeoutId ;;
  match error with
  | ThrownFliinowError _ => throw error
  | ThrownError e =>
      if String.eqb (error_name e) "AbortError"
      then throw (ThrownError (new_Error (timeout_message this)))
      else throw error
  | ThrownValue _ => throw (ThrownError (new_Error "Unknown error occurred"))
  end.

Definition request (this : FliinowClient) (method : Method) (path : string)
    (body : value) : Async value :=
  let url := baseUrl this ++ path in
  let headers := request_headers this in
  timeoutId <- setTimeout_abort (timeout this) ;;
  try_catch (request_try this timeoutId url method headers body)
            (request_catch this timeoutId).

(* ------------------------------------------------------------------ *)
(** ** URLSearchParams *)

Module URLSearchParams.

(** The list of name-value pairs of a [URLSearchParams] object. *)
Definition t : Type := list (string * string).

(** The conversion to [USVString] that [append] applies to its
    arguments: an unpaired surrogate becomes U+FFFD ([EF BF BD]). *)
Fixpoint toUSVString (s : string) : string :=
  match s with
  | EmptyString => ""
  | String c r =>
      match r with
      | String c2 (String c3 r3) =>
          if ((N_of_ascii c =? 237) && (160 <=? N_of_ascii c2)
              && (N_of_ascii c2 <=? 191))%N
          then String (ascii_of_N 239)
                 (String (ascii_of_N 191)
                    (String (ascii_of_N 189) (toUSVString r3)))
          else String c (toUSVString r)
      | _ => String c (toUSVString r)
      end
  end.

Definition append (sp : t) (name value : string) : t :=
  (sp ++ [(toUSVString name, toUSVString value)])%list.

(** Bytes outside the application/x-www-form-urlencoded percent-encode set:
    ASCII alphanumerics and [*], [-], [.], [_]. *)
Definition unreserved (c : ascii) : bool :=
  let n := N_of_ascii c in
  (((48 <=? n) && (n <=? 57)) || ((65 <=? n) && (n <=? 90))
   || ((97 <=? n) && (n <=? 122))
   || (n =? 42) || (n =? 45) || (n =? 46) || (n =? 95))%N.

Definition hex_digit (n : N) : ascii :=
  ascii_of_N (if (n <? 10)%N then 48 + n else 55 + n).

Definition encode_byte (c : ascii) : string :=
  if unreserved c then String c ""
  else if (N_of_ascii c =? 32)%N then "+"
  else
    let n := N_of_ascii c in
    String "%" (String (hex_digit (n / 16)) (String (hex_digit (n mod 16)) "")).

(** Percent-encode after UTF-8 encoding, with space as plus. *)
Fixpoint encode (s : string) : string :=
  match s with
  | EmptyString => ""
  | String c r => encode_byte c ++ encode r
  end.

(** [searchParams.toString()]: the pairs [name=value], percent-encoded,
    joined by [&]. *)
Definition serialize_pair (p : string * string) : string :=
  encode (fst p) ++ "=" ++ encode (snd p).

Definition toString (sp : t) : string :=
  Str.join "&" (map serialize_pair sp).

(** Reading a query string back: the application/x-www-form-urlencoded
    parser of the platform (what [new URLSearchParams(query)] holds). *)
Definition hex_value (c : ascii) : option N :=
  let n := N_of_ascii c in
  if ((48 <=? n) && (n <=? 57))%N then Some (n - 48)%N
  else if ((65 <=? n) && (n <=? 70))%N then Some (n - 55)%N
  else if ((97 <=? n) && (n <=? 102))%N then Some (n - 87)%N
  else None.

Fixpoint decode (s : string) : string :=
  match s with
  | EmptyString => ""
  | String c r =>
      if Ascii.eqb c "+" then String " " (decode r)
      else if Ascii.eqb c "%" then
        match r with
        | String h (String l r') =>
            match hex_value h, hex_value l with
            | Some a, Some b => String (ascii_of_N (16 * a + b)) (decode r')
            | _, _ => String c (decode r)
            end
        | _ => String c (decode r)
        end
      else String c (decode r)
  end.

(** The pieces of [s] between occurrences of [sep]. *)
Fixpoint split (sep : ascii) (s : string) : list string :=
  match s with
  | EmptyString => [""]
  | String c r =>
      if Ascii.eqb c sep then "" :: split sep r
      else
        match split sep r with
        | x :: xs => String c x :: xs
        | [] => [String c ""]
        end
  end.

(** [s] before and after its first [sep]. *)
Fixpoint cut (sep : ascii) (s : string) : string * string :=
  match s with
  | EmptyString => ("", "")
  | String c r =>
      if Ascii.eqb c sep then ("", r)
      else let '(a, b) := cut sep r in (String c a, b)
  end.

Definition parse (query : string) : t :=
  map (fun piece => let '(n, v) := cut "=" piece in (decode n, decode v))
      (filter Str.truthy (split "&" query)).

(** No byte of [s] is [sep]. *)
Fixpoint free_of (sep : ascii) (s : string) : bool :=
  match s with
  | EmptyString => true
  | String c r => negb (Ascii.eqb c sep) && free_of sep r
  end.

End URLSearchParams.

(* ------------------------------------------------------------------ *)
(** ** class OperationsApi *)

(** [ListOperationsParams] at run time: the own properties of the object
    in [Object.entries] order; the declared fields ([status], [from],
    [to], [page], [size]) hold primitives. *)
Definition ListOperationsParams : Type := list (string * prim).

Definition present (v : prim) : bool :=   (* value !== undefined && value !== null *)
  match v with
  | PUndefined | PNull => false
  | _ => true
  end.

(** The loop [for (const [key, value] of Object.entries(params))]. *)
Fixpoint buildQueryString_loop (entries : ListOperationsParams)
    (searchParams : URLSearchParams.t) : URLSearchParams.t :=
  match entries with
  | [] => searchParams
  | (key, v) :: rest =>
      buildQueryString_loop rest
        (if present v
         then URLSearchParams.append searchParams key (String_prim v)
         else searchParams)
  end.

(** In the words of the specification: the fields of [params] whose
    value is neither [undefined] nor [null], each value stringified, in
    the order of [params]. *)
Fixpoint stringified_fields (params : ListOperationsParams)
  : list (string * string) :=
  match params with
  | [] => []
  | (key, PUndefined) :: rest => stringified_fields rest
  | (key, PNull) :: rest => stringified_fields rest
  | (key, PBool true) :: rest => (key, "true") :: stringified_fields rest
  | (key, PBool false) :: rest => (key, "false") :: stringified_fields rest
  | (key, PNumber n) :: rest =>
      (key, Number_toString n) :: stringified_fields rest
  | (key, PString s) :: rest => (key, s) :: stringified_fields rest
  end.


(** The stringified fields as they are sent: names and values with each
    unpaired surrogate replaced by U+FFFD. *)
Definition sent_fields (params : ListOperationsParams)
  : list (string * string) :=
  map (fun kv => (URLSearchParams.toUSVString (fst kv),
                  URLSearchParams.toUSVString (snd kv)))
      (stringified_fields params).

Definition buildQueryString (params : ListOperationsParams) : string :=
  let searchParams := buildQueryString_loop params [] in
  let queryString := URLSearchParams.toString searchParams in
  if Str.truthy queryString then "?" ++ queryString else "".

Module OperationsApi.

Definition create (client : FliinowClient) (req : value) : Async value :=
  request client POST "/operations" req.

Definition get (client : FliinowClient) (operationId : string) : Async value :=
  request client GET ("/operations/" ++ operationId) undefined.

(** The path [list] requests. *)
Definition list_path (params : option ListOperationsParams) : string :=
  let query :=
    match params with
    | Some p => buildQueryString p
    | None => ""
    end in
  "/operations" ++ query.

Definition list (client : FliinowClient)
    (params : option ListOperationsParams) : Async value :=
  request client GET (list_path params) undefined.

Definition getStatus (client : FliinowClient) (operationId : string)
  : Async value :=
  request client GET ("/operations/" ++ operationId ++ "/status") undefined.

Definition getPlans (client : FliinowClient) (operationId : string)
  : Async value :=
  request client GET ("/operations/" ++ operationId ++ "/plans") undefined.

Definition startFinancing (client : FliinowClient) (operationId : string)
    (req : value) : Async value :=
  request client POST ("/operations/" ++ operationId ++ "/financing") req.

Definition cancel (client : FliinowClient) (operationId : string)
    (req : value) : Async value :=
  _ <- request client POST ("/operations/" ++ operationId ++ "/cancel") req ;;
  ret undefined.

End OperationsApi.

(* ------------------------------------------------------------------ *)
(** ** Running a request *)

(** The [RequestInit] that [request] hands to [fetch]. *)
Definition request_init (this : FliinowClient) (method : Method)
    (body : value) : RequestInit :=
  mkInit method (request_headers this)
         (if truthy body then Some (JSON_stringify body) else None).

(** The world in which the [try] block starts: the timer is set. *)
Definition timer_set (this : FliinowClient) (w : World) : World :=
  snd (setTimeout_abort (timeout this) w).

(** A decoded body that is an error envelope
    [{error, message, timestamp, path}] with string fields. *)
Definition error_envelope (data : value)
    (error message timestamp path : string) : Prop :=
  exists fields,
    data = VObject fields
    /\ lookup "error" fields = Some (VString error)
    /\ lookup "message" fields = Some (VString message)
    /\ lookup "timestamp" fields = Some (VString timestamp)
    /\ lookup "path" fields = Some (VString path).

(** What the non-2xx branch passes as [retryAfter]. *)
Definition retryAfter_of (r : Response) : option number :=
  match headers_get r "Retry-After" with
  | Some (String c s) => Some (ParseInt.parseInt (String c s))
  | _ => None
  end.

(** The calls of [fetch] in a trace. *)
Definition is_fetch (e : event) : bool :=
  match e with EvFetch _ _ => true | _ => false end.

(* ------------------------------------------------------------------ *)
(** ** Sample clients, responses and worlds *)

Module Sample.

Definition sandbox_client : FliinowClient :=
  new_FliinowClient (mkConfig "fk_test_key" (Some true) None None).

Definition no_headers : string -> option string := fun _ => None.

Definition retry_after (v : string) : string -> option string :=
  fun h => if String.eqb h "Retry-After" then Some v else None.

Definition envelope : value :=
  VObject [ ("error", VString "RATE_LIMIT_EXCEEDED");
            ("message", VString "Too many requests");
            ("timestamp", VString "2026-01-13T10:00:00Z");
            ("path", VString "/operations") ].

Definition operation : value :=
  VObject [ ("id", VString "abc123");
            ("status", VString "GENERATED");
            ("financingUrl", VString "https://pay.example/abc123");
            ("surprise", VArray [VPrim (PNumber (Num 1)); VPrim PNull]) ].

(** A platform whose [fetch] always settles the same way. *)
Definition world (s : settles Response) : World :=
  mkWorld (fun _ _ => s) 0 [] [].

Definition responds (st : Z) (headers : string -> option string)
    (body : settles value) : World :=
  world (Fulfils (mkResponse st headers body)).

(** A platform with two timers of other code scheduled, whose [fetch]
    never settles by itself. *)
Definition busy_world : World :=
  mkWorld (fun _ _ => Stalls) 8%nat [3%nat; 5%nat] [].

(** The string made of the unpaired surrogate U+D800, and the string
    made of U+FFFD. *)
Definition lone_surrogate : string :=
  String (ascii_of_N 237) (String (ascii_of_N 160) (String (ascii_of_N 128) "")).

Definition replacement_character : string :=
  String (ascii_of_N 239) (String (ascii_of_N 191) (String (ascii_of_N 189) "")).

Definition SyntaxError : ErrorObject :=
  mkError "SyntaxError" "SyntaxError" "Unexpected token < in JSON at position 0".

Definition network_failure : ErrorObject :=
  mkError "TypeError" "TypeError" "fetch failed".

End Sample.

(* ------------------------------------------------------------------ *)
(** ** examples/simple-app.js: start of the script *)

Module SimpleApp.

(** [process.argv] and [process.env]. *)
Record Process : Type := mkProcess {
  argv : list string;
  env : string -> option string
}.

(** [args.has(flag)] for [args = new Set(process.argv.slice(2))]. *)
Definition has (p : Process) (flag : string) : bool :=
  existsb (String.eqb flag) (skipn 2 (argv p)).

Definition dryRun (p : Process) : bool := has p "--dry-run".
Definition doList (p : Process) : bool := has p "--list".
Definition doCreate (p : Process) : bool :=
  has p "--create" || negb (doList p).

(** A string that is set and not empty. *)
Definition set (v : option string) : bool :=
  match v with
  | Some s => Str.truthy s
  | None => false
  end.

Definition apiKey (p : Process) : option string := env p "FLIINOW_API_KEY".

(** [(process.env.FLIINOW_SANDBOX ?? 'true') !== 'false']. *)
Definition sandbox (p : Process) : bool :=
  negb (String.eqb
          (match env p "FLIINOW_SANDBOX" with Some s => s | None => "true" end)
          "false").

Definition baseUrl (p : Process) : option string := env p "FLIINOW_BASE_URL".

(** How the script starts: [process.exit(code)] after the lines written
    with [console.error], or the client it constructs. *)
Inductive started : Type :=
  | Exit (code : Z) (stderr : list string)
  | Client (client : FliinowClient).

Definition start (p : Process) : started :=
  if negb (set (apiKey p)) && negb (dryRun p) then
    Exit 1
      [ "Missing FLIINOW_API_KEY. Set it to your fk_test_* or fk_live_* key.";
        "Example: FLIINOW_API_KEY=fk_test_xxx node examples/simple-app.js --create" ]
  else
    Client
      (new_FliinowClient
         {| config_apiKey :=
              match apiKey p with                 (* apiKey || '...' *)
              | Some (String c k) => String c k
              | _ => "fk_test_placeholder"
              end;
            config_sandbox := Some (sandbox p);
            config_timeout := None;
            config_baseUrl :=
              match baseUrl p with                (* baseUrl || undefined *)
              | Some (String c u) => Some (String c u)
              | _ => None
              end |}).

(** A sample: [node examples/simple-app.js --list] with a key and a local server. *)
Definition local_process : Process :=
  mkProcess
    ["node"; "examples/simple-app.js"; "--list"]
    (fun k =>
       if String.eqb k "FLIINOW_API_KEY" then Some "fk_test_key"
       else if String.eqb k "FLIINOW_BASE_URL" then Some "http://localhost:8080"
       else None).

End SimpleApp.

(* ------------------------------------------------------------------ *)
(** ** Further notions used by the properties *)


(** Every scheduled timer was handed out by [setTimeout] before. *)
Definition timers_fresh (w : World) : Prop :=
  forall i, In i (scheduled w) -> (i < next_timer w)%nat.

(** The own property [k] of a decoded object, [undefined] when the
    object has none. *)
Definition field (k : string) (fields : list (string * value)) : value :=
  match lookup k fields with
  | Some v => v
  | None => undefined
  end.

(** A decoded body that is not [null] and holds nothing under [message],
    [error], [path] and [requestId]: a string, a number, a boolean, an
    array, or an object without these properties. *)
Definition no_error_fields (data : value) : Prop :=
  match data with
  | VPrim PUndefined | VPrim PNull => False
  | VPrim _ | VArray _ => True
  | VObject fields =>
      lookup "message" fields = None /\ lookup "error" fields = None
      /\ lookup "path" fields = None /\ lookup "requestId" fields = None
  end.

(** The platform calls [m] makes from [w] include exactly one [fetch],
    of [url] with [init]. *)
Definition fetches_once (m : Async value) (w : World)
    (url : string) (init : RequestInit) : Prop :=
  exists calls,
    trace (snd (m w)) = (calls ++ trace w)%list
    /\ filter is_fetch calls = [EvFetch url init].

(** Bytes that can stand in a query string without changing its
    structure: what [URLSearchParams.encode] leaves or produces ([+], [%],
    hexadecimal digits) and the separators [=], [&] and [?]. *)
Definition query_byte (c : ascii) : bool :=
  URLSearchParams.unreserved c
  || Ascii.eqb c "+" || Ascii.eqb c "%"
  || Ascii.eqb c "=" || Ascii.eqb c "&" || Ascii.eqb c "?".

Fixpoint all_bytes (f : ascii -> bool) (s : string) : bool :=
  match s with
  | EmptyString => true
  | String c r => f c && all_bytes f r
  end.

(* ------------------------------------------------------------------ *)
(** ** Tactics *)

(** Unfold one invocation of [request] down to the platform calls. *)
Ltac run_request :=
  unfold request, request_try, request_catch, request_init, timer_set,
    bind, try_catch, fetch, setTimeout_abort, clearTimeout, Response_json,
    ret, throw, log, unschedule in *;
  cbn [fst snd fetch_settles next_timer scheduled trace existsb] in *.

(** Every control path of [request]: how [fetch] settles, the status, how
    the body decodes, whether the error could be built, and the class of
    the value caught. *)
Ltac request_paths :=
  run_request; rewrite ?Nat.eqb_refl; cbn [orb];
  repeat
    (cbn [fst snd negb orb trace scheduled fetch_settles next_timer];
     match goal with
     | |- context [match fetch_settles ?w ?u ?i with _ => _ end] =>
         destruct (fetch_settles w u i) as [?r|?t|] eqn:?
     | |- context [if status ?r =? 204 then _ else _] =>
         destruct (status r =? 204) eqn:?
     | |- context [match json_settles ?r with _ => _ end] =>
         destruct (json_settles r) as [?data|?t|] eqn:?
     | |- context [negb (ok ?r)] =>
         destruct (ok r) eqn:?
     | |- context [match new_FliinowError ?a ?b ?c with _ => _ end] =>
         destruct (new_FliinowError a b c) eqn:?
     | |- context [match ?t with ThrownFliinowError _ => _ | _ => _ end] =>
         destruct t
     | |- context [if String.eqb ?a ?b then _ else _] =>
         destruct (String.eqb a b) eqn:?
     end);
  cbn [fst snd negb orb trace scheduled fetch_settles next_timer].

(** Turn the boolean tests recorded along a path into propositions. *)
Ltac path_facts :=
  repeat match goal with
    | H : (_ =? _) = true |- _ => apply Z.eqb_eq in H
    | H : (_ =? _) = false |- _ => apply Z.eqb_neq in H
    | H : (_ =? _)%string = true |- _ => apply String.eqb_eq in H
    | H : (_ =? _)%string = false |- _ => apply String.eqb_neq in H
    end.

(** Decide membership in an explicit list of calls. *)
Ltac in_calls :=
  cbn [In] in *;
  repeat match goal with
    | H : _ \/ _ |- _ => destruct H as [H|H]
    | H : False |- _ => contradiction
    | H : @eq event _ _ |- _ => discriminate H
    end.

(** The calls [l] holds on top of [base]. *)
Ltac calls_since l base :=
  match l with
  | base => constr:(@nil event)
  | ?x :: ?r => let p := calls_since r base in constr:(x :: p)
  end.

Ltac exists_calls :=
  match goal with
  | |- exists calls, ?l = (calls ++ ?base)%list /\ _ =>
      let p := calls_since l base in exists p
  end.

(* ------------------------------------------------------------------ *)
(** * Properties *)

Example parseInt_5 : ParseInt.parseInt "5" = Num 5.
Proof. reflexivity. Qed.

Example parseInt_120_seconds : ParseInt.parseInt " 120 seconds" = Num 120.
Proof. reflexivity. Qed.

Example parseInt_date :
  ParseInt.parseInt "Wed, 21 Oct 2026 07:28:00 GMT" = NaN.
Proof. reflexivity. Qed.

Example ToString_array :
  ToString (VArray [VPrim (PNumber (Num 1)); VPrim PNull; VString "a"])
  = Some "1,,a".
Proof. reflexivity. Qed.

Example list_path_example :
  OperationsApi.list_path
    (Some [("status", PString "FAVORABLE"); ("page", PNumber (Num 0));
           ("size", PNumber (Num 20))])
  = "/operations?status=FAVORABLE&page=0&size=20".
Proof. reflexivity. Qed.

Example list_path_skips_absent :
  OperationsApi.list_path
    (Some [("status", PUndefined); ("from", PString "2026/01/01 a");
           ("to", PNull)])
  = "/operations?from=2026%2F01%2F01+a".
Proof. reflexivity. Qed.

Example list_path_empty : OperationsApi.list_path (Some []) = "/operations".
Proof. reflexivity. Qed.

Example list_path_no_params : OperationsApi.list_path None = "/operations".
Proof. reflexivity. Qed.

Example encode_reserved :
  URLSearchParams.encode "a b~!*c/d&e=f+g%" = "a+b%7E%21*c%2Fd%26e%3Df%2Bg%25".
Proof. reflexivity. Qed.

Example Number_toString_negative : Number_toString (Num (-42)) = "-42".
Proof. reflexivity. Qed.

Example Number_toString_zero : Number_toString (Num 0) = "0".
Proof. reflexivity. Qed.

Example Number_toString_beyond_safe :
  Number_toString (Num (2 ^ 60)) = "1152921504606847000"
  /\ Number_toString (Num (2 ^ 64)) = "18446744073709552000"
  /\ Number_toString (Num 9007199254740993) = "9007199254740992"
  /\ Number_toString (Num (10 ^ 20)) = "100000000000000000000".
Proof. repeat split; vm_compute; reflexivity. Qed.

Example Number_toString_exponent :
  Number_toString (Num (10 ^ 21)) = "1e+21"
  /\ Number_toString (Num (2 ^ 70)) = "1.1805916207174113e+21"
  /\ Number_toString (Num (10 ^ 23)) = "1e+23"
  /\ Number_toString (Num (- 123456789012345678901234567890))
     = "-1.2345678901234568e+29"
  /\ Number_toString (Num (2 ^ 1024 - 2 ^ 971)) = "1.7976931348623157e+308"
  /\ Number_toString (Num (2 ^ 1024)) = "Infinity".
Proof. repeat split; vm_compute; reflexivity. Qed.

Example parseInt_beyond_safe :
  ParseInt.parseInt "9007199254740993" = Num 9007199254740992
  /\ ParseInt.parseInt "9007199254740995" = Num 9007199254740996
  /\ ParseInt.parseInt "-18446744073709551615" = Num (- 2 ^ 64).
Proof. repeat split; vm_compute; reflexivity. Qed.

Example timeout_message_large :
  timeout_message (mkClient "" "" (Num (10 ^ 21)))
  = "Request timeout after 1e+21ms".
Proof. vm_compute. reflexivity. Qed.

Example parseInt_signs :
  ParseInt.parseInt "-7" = Num (-7) /\ ParseInt.parseInt "+7" = Num 7
  /\ ParseInt.parseInt "-" = NaN /\ ParseInt.parseInt "0x10" = Num 0.
Proof. repeat split; reflexivity. Qed.

Lemma status_not_ok (r : Response) :
  ~ (200 <= status r < 300) -> ok r = false.
Proof.
  intros H. unfold ok.
  destruct (200 <=? status r) eqn:E1; [|reflexivity].
  destruct (status r <=? 299) eqn:E2; [|reflexivity].
  apply Z.leb_le in E1. apply Z.leb_le in E2. lia.
Qed.

Lemma status_ok (r : Response) :
  200 <= status r < 300 -> ok r = true.
Proof.
  intros H. unfold ok.
  apply andb_true_intro; split; apply Z.leb_le; lia.
Qed.

(** The non-2xx branch with a decoded body: the error is built from the
    body, the status and the [Retry-After] header, and it is what the call
    throws. *)
Lemma request_not_ok (this : FliinowClient) (method : Method)
    (route : string) (body : value) (w : World) (r : Response) (data : value) :
  fetch_settles w (baseUrl this ++ route) (request_init this method body)
    = Fulfils r ->
  ok r = false ->
  status r <> 204 ->
  json_settles r = Fulfils data ->
  fst (request this method route body w)
  = match new_FliinowError data (status r) (retryAfter_of r) with
    | inl e => Throws (ThrownFliinowError e)
    | inr e =>
        if String.eqb (error_name e) "AbortError"
        then Throws (ThrownError (new_Error (timeout_message this)))
        else Throws (ThrownError e)
    end.
Proof.
  intros Hfetch Hok H204 Hjson.
  run_request. rewrite Hfetch. cbn.
  apply Z.eqb_neq in H204. rewrite H204. cbn.
  rewrite Hjson, Hok. cbn. unfold retryAfter_of.
  destruct (new_FliinowError data (status r) _) as [e|e]; cbn.
  - reflexivity.
  - destruct (String.eqb (error_name e) "AbortError"); reflexivity.
Qed.

(** C1.  When the response status is outside [200,300) and is not 204,
    and the body decodes as a well-formed error envelope
    [{error, message, timestamp, path}], the call fails with a
    [FliinowError] whose [statusCode] is the HTTP status and whose [code],
    [message] and [path] are the envelope's [error], [message] and [path]. *)
Theorem request_error_envelope
    (this : FliinowClient) (method : Method) (route : string) (body : value)
    (w : World) (r : Response) (data : value)
    (err msg ts p : string) :
  fetch_settles w (baseUrl this ++ route) (request_init this method body)
    = Fulfils r ->
  ~ (200 <= status r < 300) ->
  status r <> 204 ->
  json_settles r = Fulfils data ->
  error_envelope data err msg ts p ->
  exists e : FliinowError,
    fst (request this method route body w) = Throws (ThrownFliinowError e)
    /\ statusCode e = status r
    /\ code e = VString err
    /\ message e = msg
    /\ path e = VString p.
Proof.
  intros Hfetch Hstatus H204 Hjson (fields & -> & Herr & Hmsg & _ & Hpath).
  rewrite (request_not_ok this method route body w r _ Hfetch
             (status_not_ok r Hstatus) H204 Hjson).
  unfold new_FliinowError, property. rewrite Hmsg, Herr, Hpath. cbn.
  eexists. split; [reflexivity|]. cbn. auto.
Qed.

Lemma request_error_envelope_witness :
  exists e : FliinowError,
    fst (request Sample.sandbox_client GET "/operations/abc123" undefined
           (Sample.responds 429 Sample.no_headers (Fulfils Sample.envelope)))
    = Throws (ThrownFliinowError e)
    /\ statusCode e = 429
    /\ code e = VString "RATE_LIMIT_EXCEEDED"
    /\ message e = "Too many requests"
    /\ path e = VString "/operations".
Proof.
  apply (request_error_envelope Sample.sandbox_client GET
           "/operations/abc123" undefined
           (Sample.responds 429 Sample.no_headers (Fulfils Sample.envelope))
           (mkResponse 429 Sample.no_headers (Fulfils Sample.envelope))
           Sample.envelope
           "RATE_LIMIT_EXCEEDED" "Too many requests" "2026-01-13T10:00:00Z"
           "/operations").
  - reflexivity.
  - cbn. lia.
  - cbn. lia.
  - reflexivity.
  - exists [ ("error", VString "RATE_LIMIT_EXCEEDED");
             ("message", VString "Too many requests");
             ("timestamp", VString "2026-01-13T10:00:00Z");
             ("path", VString "/operations") ].
    repeat split; reflexivity.
Defined.

(** C2.  When the response status is in [200,300) and is not 204, and the
    body decodes as [X], the call resolves with exactly [X]: no
    transformation and no validation of the decoded value, whatever fields
    or strings it holds. *)
Theorem request_returns_decoded_body
    (this : FliinowClient) (method : Method) (route : string) (body : value)
    (w : World) (r : Response) (X : value) :
  fetch_settles w (baseUrl this ++ route) (request_init this method body)
    = Fulfils r ->
  200 <= status r < 300 ->
  status r <> 204 ->
  json_settles r = Fulfils X ->
  fst (request this method route body w) = Returns X.
Proof.
  intros Hfetch Hstatus H204 Hjson.
  run_request. rewrite Hfetch. cbn.
  apply Z.eqb_neq in H204. rewrite H204. cbn.
  rewrite Hjson, (status_ok r Hstatus). reflexivity.
Qed.

Lemma request_returns_decoded_body_witness :
  fst (request Sample.sandbox_client POST "/operations" Sample.envelope
         (Sample.responds 200 Sample.no_headers (Fulfils Sample.operation)))
  = Returns Sample.operation.
Proof.
  apply (request_returns_decoded_body Sample.sandbox_client POST
           "/operations" Sample.envelope
           (Sample.responds 200 Sample.no_headers (Fulfils Sample.operation))
           (mkResponse 200 Sample.no_headers (Fulfils Sample.operation))).
  - reflexivity.
  - cbn. lia.
  - cbn. lia.
  - reflexivity.
Defined.

(** C6.  When the response status is 204 the call resolves with
    [undefined], whatever the body is, and [response.json()] is not
    called: the platform calls of the invocation are [setTimeout],
    [fetch] and [clearTimeout] only. *)
Theorem request_no_content
    (this : FliinowClient) (method : Method) (route : string) (body : value)
    (w : World) (r : Response) :
  fetch_settles w (baseUrl this ++ route) (request_init this method body)
    = Fulfils r ->
  status r = 204 ->
  fst (request this method route body w) = Returns undefined
  /\ exists calls,
       trace (snd (request this method route body w))
       = (calls ++ trace w)%list
       /\ calls = [ EvClearTimeout (next_timer w);
                    EvFetch (baseUrl this ++ route)
                            (request_init this method body);
                    EvSetTimeout (next_timer w) (timeout this) ]
       /\ ~ In EvJson calls.
Proof.
  intros Hfetch H204.
  run_request. rewrite Hfetch. cbn. rewrite H204. cbn.
  split; [reflexivity|].
  eexists. split; [|split].
  2: reflexivity.
  - reflexivity.
  - cbn. intros [H|[H|[H|[]]]]; discriminate H.
Qed.

Lemma request_no_content_witness :
  fst (request Sample.sandbox_client POST "/operations/abc123/cancel" undefined
         (Sample.responds 204 Sample.no_headers
            (Rejects (ThrownError Sample.SyntaxError))))
  = Returns undefined
  /\ exists calls,
       trace (snd (request Sample.sandbox_client POST
                     "/operations/abc123/cancel" undefined
                     (Sample.responds 204 Sample.no_headers
                        (Rejects (ThrownError Sample.SyntaxError)))))
       = (calls ++ [])%list
       /\ calls = [ EvClearTimeout 0;
                    EvFetch (demo_url ++ "/operations/abc123/cancel")
                            (request_init Sample.sandbox_client POST undefined);
                    EvSetTimeout 0 (Num 30000) ]
       /\ ~ In EvJson calls.
Proof.
  apply (request_no_content Sample.sandbox_client POST
           "/operations/abc123/cancel" undefined
           (Sample.responds 204 Sample.no_headers
              (Rejects (ThrownError Sample.SyntaxError)))
           (mkResponse 204 Sample.no_headers
              (Rejects (ThrownError Sample.SyntaxError)))).
  - reflexivity.
  - reflexivity.
Defined.

Lemma not_scheduled_after_unschedule (id : nat) (w : World) :
  ~ In id (scheduled (unschedule id w)).
Proof.
  unfold unschedule. cbn. intros H. apply filter_In in H.
  destruct H as [_ H]. rewrite Nat.eqb_refl in H. discriminate H.
Qed.

Lemma scheduled_unschedule_other (id i : nat) (w : World) :
  i <> id -> (In i (scheduled (unschedule id w)) <-> In i (scheduled w)).
Proof.
  intros Hne. unfold unschedule. cbn. rewrite filter_In.
  apply Nat.eqb_neq in Hne. rewrite Hne. cbn. tauto.
Qed.

(** The catch clause on a [FliinowError]: clear the timer, rethrow. *)
Lemma request_catch_FliinowError (this : FliinowClient) (id : nat)
    (e : FliinowError) (w : World) :
  request_catch this id (ThrownFliinowError e) w
  = (Throws (ThrownFliinowError e), log (EvClearTimeout id) (unschedule id w)).
Proof. reflexivity. Qed.

(** C10.  When the [try] block of [request] throws a [FliinowError], the
    call throws that same [FliinowError], unchanged: the catch clause only
    clears the timer before rethrowing, so the last platform call is
    [clearTimeout] and the timer of the call is no longer scheduled. *)
Theorem request_rethrows_FliinowError
    (this : FliinowClient) (method : Method) (route : string) (body : value)
    (w : World) (e : FliinowError) :
  fst (request_try this (next_timer w) (baseUrl this ++ route) method
         (request_headers this) body (timer_set this w))
    = Throws (ThrownFliinowError e) ->
  fst (request this method route body w) = Throws (ThrownFliinowError e)
  /\ (exists earlier,
        trace (snd (request this method route body w))
        = EvClearTimeout (next_timer w) :: earlier)
  /\ ~ In (next_timer w) (scheduled (snd (request this method route body w))).
Proof.
  intros Htry.
  unfold request, bind, try_catch.
  unfold timer_set in Htry.
  destruct (setTimeout_abort (timeout this) w) as [o w0] eqn:Eset.
  unfold setTimeout_abort in Eset. injection Eset as <- <-.
  cbn [snd] in Htry.
  destruct (request_try _ _ _ _ _ _ _) as [o1 w1].
  cbn [fst] in Htry. subst o1.
  rewrite request_catch_FliinowError. cbn [fst snd].
  split; [reflexivity|]. split.
  - eexists. reflexivity.
  - apply (not_scheduled_after_unschedule (next_timer w) w1).
Qed.

Lemma request_rethrows_FliinowError_witness :
  fst (request Sample.sandbox_client GET "/operations" undefined
         (Sample.responds 429 (Sample.retry_after "5")
            (Fulfils Sample.envelope)))
  = Throws (ThrownFliinowError
              (mkFliinowError "Too many requests" "FliinowError" 429
                 (VString "RATE_LIMIT_EXCEEDED") (VString "/operations")
                 undefined (Some (Num 5))))
  /\ (exists earlier,
        trace (snd (request Sample.sandbox_client GET "/operations" undefined
                      (Sample.responds 429 (Sample.retry_after "5")
                         (Fulfils Sample.envelope))))
        = EvClearTimeout 0 :: earlier)
  /\ ~ In 0%nat
       (scheduled (snd (request Sample.sandbox_client GET "/operations"
                          undefined
                          (Sample.responds 429 (Sample.retry_after "5")
                             (Fulfils Sample.envelope))))).
Proof.
  apply (request_rethrows_FliinowError Sample.sandbox_client GET
           "/operations" undefined
           (Sample.responds 429 (Sample.retry_after "5")
              (Fulfils Sample.envelope))).
  reflexivity.
Defined.

(** C9.  Every invocation calls [fetch] exactly once, with the URL
    [baseUrl + path] (plain concatenation) and with the three headers
    [X-Fliinow-API-Key], [Content-Type: application/json] and
    [Accept: application/json], for every method, path and body and
    however the exchange ends. *)
Theorem request_url_and_headers
    (this : FliinowClient) (method : Method) (route : string) (body : value)
    (w : World) :
  exists calls,
    trace (snd (request this method route body w)) = (calls ++ trace w)%list
    /\ filter is_fetch calls
       = [ EvFetch (baseUrl this ++ route)
             (mkInit method
                [ ("X-Fliinow-API-Key", apiKey this);
                  ("Content-Type", "application/json");
                  ("Accept", "application/json") ]
                (if truthy body then Some (JSON_stringify body) else None)) ].
Proof.
  request_paths; exists_calls; split; reflexivity.
Qed.






Example request_timeout_message :
  fst (request Sample.sandbox_client GET "/operations" undefined
         (Sample.world Stalls))
  = Throws (ThrownError (new_Error "Request timeout after 30000ms")).
Proof. reflexivity. Qed.

(** The body is read after the timer is cleared: a response whose body
    never arrives leaves the call pending, with no timer scheduled. *)
Example request_body_stalls :
  request Sample.sandbox_client GET "/operations" undefined
    (Sample.responds 200 Sample.no_headers Stalls)
  = (Pending,
     mkWorld (fun _ _ => Fulfils (mkResponse 200 Sample.no_headers Stalls))
       1 []
       [ EvJson; EvClearTimeout 0;
         EvFetch (demo_url ++ "/operations")
                 (request_init Sample.sandbox_client GET undefined);
         EvSetTimeout 0 (Num 30000) ]).
Proof. reflexivity. Qed.

(** What the catch clause makes of a value caught that is not a
    [FliinowError]: an [Error] named [AbortError] becomes the timeout
    error, any other [Error] instance is rethrown as it is, and a value
    that is not an [Error] is replaced by [new Error('Unknown error
    occurred')]. *)
Lemma request_catch_throws (this : FliinowClient) (id : nat) (t0 : thrown)
    (w : World) :
  exists t,
    fst (request_catch this id t0 w) = Throws t
    /\ instanceof_Error t = true
    /\ (forall v, t0 = ThrownValue v ->
        t = ThrownError (new_Error "Unknown error occurred"))
    /\ (forall e, t0 = ThrownError e -> error_name e <> "AbortError" ->
        t = t0).
Proof.
  destruct t0 as [e|e|v].
  - eexists. split; [reflexivity|]. repeat split; intros; discriminate.
  - unfold request_catch, bind, clearTimeout, throw. cbn.
    destruct (String.eqb (error_name e) "AbortError") eqn:E; cbn.
    + eexists. split; [reflexivity|]. repeat split; intros; try discriminate.
      apply String.eqb_eq in E. congruence.
    + eexists. split; [reflexivity|].
      repeat split; intros; try discriminate; reflexivity.
  - eexists. split; [reflexivity|].
    repeat split; intros; try discriminate; reflexivity.
Qed.

(** C5.  Whatever [request] throws is an instance of [Error].  A failure
    of the transport ([fetch] rejects) or of the decoding
    ([response.json()] rejects) always makes the call throw -- it never
    resolves with a value: an [Error] instance other than an
    [AbortError] reaches the caller as it is, and a thrown value that is
    not an [Error] is replaced by [new Error('Unknown error occurred')]. *)
Theorem request_failures_are_errors
    (this : FliinowClient) (method : Method) (route : string) (body : value)
    (w : World) :
  (forall t,
      fst (request this method route body w) = Throws t ->
      instanceof_Error t = true)
  /\ (forall t0,
         fetch_settles w (baseUrl this ++ route)
           (request_init this method body) = Rejects t0
         \/ (exists r,
               fetch_settles w (baseUrl this ++ route)
                 (request_init this method body) = Fulfils r
               /\ status r <> 204
               /\ json_settles r = Rejects t0) ->
         exists t,
           fst (request this method route body w) = Throws t
           /\ instanceof_Error t = true
           /\ (forall v, t0 = ThrownValue v ->
               t = ThrownError (new_Error "Unknown error occurred"))
           /\ (forall e, t0 = ThrownError e ->
               error_name e <> "AbortError" -> t = t0)).
Proof.
  split.
  - intros t. request_paths; intros H; inversion H; reflexivity.
  - intros t0 H.
    destruct (request_catch_throws this (next_timer w) t0
                (log (EvFetch (baseUrl this ++ route)
                        (request_init this method body))
                   (timer_set this w))) as (t & Ht & Hrest).
    destruct H as [Hfetch | (r & Hfetch & H204 & Hjson)].
    + exists t. split; [|exact Hrest].
      rewrite <- Ht. run_request. rewrite Hfetch. reflexivity.
    + destruct (request_catch_throws this (next_timer w) t0
                  (log EvJson
                     (log (EvClearTimeout (next_timer w))
                        (unschedule (next_timer w)
                           (log (EvFetch (baseUrl this ++ route)
                                   (request_init this method body))
                              (timer_set this w))))))
        as (t' & Ht' & Hrest').
      exists t'. split; [|exact Hrest'].
      rewrite <- Ht'. run_request. rewrite Hfetch. cbn.
      apply Z.eqb_neq in H204. rewrite H204. cbn. rewrite Hjson.
      reflexivity.
Qed.

Lemma request_failures_are_errors_witness :
  exists t,
    fst (request Sample.sandbox_client GET "/operations" undefined
           (Sample.responds 200 Sample.no_headers
              (Rejects (ThrownError Sample.SyntaxError))))
    = Throws t
    /\ instanceof_Error t = true
    /\ (forall v, ThrownError Sample.SyntaxError = ThrownValue v ->
        t = ThrownError (new_Error "Unknown error occurred"))
    /\ (forall e, ThrownError Sample.SyntaxError = ThrownError e ->
        error_name e <> "AbortError" -> t = ThrownError Sample.SyntaxError).
Proof.
  apply (proj2 (request_failures_are_errors Sample.sandbox_client GET
                  "/operations" undefined
                  (Sample.responds 200 Sample.no_headers
                     (Rejects (ThrownError Sample.SyntaxError))))
               (ThrownError Sample.SyntaxError)).
  right.
  exists (mkResponse 200 Sample.no_headers
            (Rejects (ThrownError Sample.SyntaxError))).
  split; [reflexivity|]. split; [cbn; lia | reflexivity].
Defined.

Example request_network_failure :
  fst (request Sample.sandbox_client GET "/operations" undefined
         (Sample.world (Rejects (ThrownError Sample.network_failure))))
  = Throws (ThrownError Sample.network_failure).
Proof. reflexivity. Qed.

Example request_non_Error_throw :
  fst (request Sample.sandbox_client GET "/operations" undefined
         (Sample.world (Rejects (ThrownValue (VString "ECONNRESET")))))
  = Throws (ThrownError (new_Error "Unknown error occurred")).
Proof. reflexivity. Qed.

(** A non-2xx response whose body is the JSON [null]: building the error
    reads a property of [null]; the call throws that TypeError. *)
Example request_null_error_body :
  fst (request Sample.sandbox_client GET "/operations" undefined
         (Sample.responds 500 Sample.no_headers (Fulfils (VPrim PNull))))
  = Throws (ThrownError
              (TypeError "Cannot read properties of null (reading 'message')")).
Proof. reflexivity. Qed.

(* ------------------------------------------------------------------ *)
(** ** retryAfter *)

(** The [retryAfter] of the error thrown for a non-2xx response: absent
    when the header is absent or empty, else [parseInt] of the header. *)
Lemma request_retryAfter
    (this : FliinowClient) (method : Method) (route : string) (body : value)
    (w : World) (r : Response) (data : value) (e : FliinowError) :
  fetch_settles w (baseUrl this ++ route) (request_init this method body)
    = Fulfils r ->
  ok r = false ->
  status r <> 204 ->
  json_settles r = Fulfils data ->
  fst (request this method route body w) = Throws (ThrownFliinowError e) ->
  retryAfter e
  = match headers_get r "Retry-After" with
    | None | Some "" => None
    | Some s => Some (ParseInt.parseInt s)
    end.
Proof.
  intros Hfetch Hok H204 Hjson.
  rewrite (request_not_ok this method route body w r data Hfetch Hok H204 Hjson).
  unfold new_FliinowError, retryAfter_of.
  destruct (property data "message") as [m|]; [|discriminate].
  destruct (match m with VPrim PUndefined => Some "" | _ => ToString m end);
    [|destruct (String.eqb _ _); discriminate].
  intros H. injection H as <-. cbn.
  destruct (headers_get r "Retry-After") as [[|c0 s0]|]; reflexivity.
Qed.

Example retryAfter_5 :
  fst (request Sample.sandbox_client GET "/operations" undefined
         (Sample.responds 429 (Sample.retry_after "5")
            (Fulfils Sample.envelope)))
  = Throws (ThrownFliinowError
              (mkFliinowError "Too many requests" "FliinowError" 429
                 (VString "RATE_LIMIT_EXCEEDED") (VString "/operations")
                 undefined (Some (Num 5)))).
Proof. reflexivity. Qed.

Example retryAfter_absent :
  fst (request Sample.sandbox_client GET "/operations" undefined
         (Sample.responds 429 Sample.no_headers (Fulfils Sample.envelope)))
  = Throws (ThrownFliinowError
              (mkFliinowError "Too many requests" "FliinowError" 429
                 (VString "RATE_LIMIT_EXCEEDED") (VString "/operations")
                 undefined None)).
Proof. reflexivity. Qed.

(** C4.  A 429 response whose [Retry-After] header is an HTTP date: the
    header is present and is not an integer, and the [retryAfter] of the
    error is [NaN], not absent. *)
Theorem retryAfter_http_date_is_NaN :
  fst (request Sample.sandbox_client GET "/operations" undefined
         (Sample.responds 429
            (Sample.retry_after "Wed, 21 Oct 2026 07:28:00 GMT")
            (Fulfils Sample.envelope)))
  = Throws (ThrownFliinowError
              (mkFliinowError "Too many requests" "FliinowError" 429
                 (VString "RATE_LIMIT_EXCEEDED") (VString "/operations")
                 undefined (Some NaN))).
Proof. reflexivity. Qed.

(* ------------------------------------------------------------------ *)
(** ** The base URL *)

(** C8, as stated, fails: a [baseUrl] that is provided as the empty string
    is not used; the constructor tests [config.baseUrl] for truthiness. *)
Lemma empty_baseUrl_not_used :
  ~ (forall config u,
       config_baseUrl config = Some u ->
       baseUrl (new_FliinowClient config) = u).
Proof.
  intros H.
  specialize (H (mkConfig "fk_test_key" (Some true) None (Some "")) ""
                eq_refl).
  discriminate H.
Qed.

(** C8, amended.  The constructor resolves the base URL: a [baseUrl] that
    is provided and not empty is used, whatever [sandbox] is; without one
    (absent or empty), [sandbox: true] selects the demo host; otherwise
    the production host.  Every request of the client fetches the resolved
    base URL followed by the path. *)
Theorem new_FliinowClient_baseUrl (config : FliinowClientConfig) :
  (forall u,
      config_baseUrl config = Some u -> u <> "" ->
      baseUrl (new_FliinowClient config) = u)
  /\ (config_baseUrl config = None \/ config_baseUrl config = Some "" ->
      config_sandbox config = Some true ->
      baseUrl (new_FliinowClient config) = demo_url)
  /\ (config_baseUrl config = None \/ config_baseUrl config = Some "" ->
      config_sandbox config <> Some true ->
      baseUrl (new_FliinowClient config) = production_url)
  /\ (forall method route body w,
      exists calls,
        trace (snd (request (new_FliinowClient config) method route body w))
        = (calls ++ trace w)%list
        /\ forall url init,
             In (EvFetch url init) calls ->
             url = baseUrl (new_FliinowClient config) ++ route).
Proof.
  repeat split.
  - intros u Hu Hne. unfold new_FliinowClient. cbn. rewrite Hu.
    destruct u; [contradiction|reflexivity].
  - intros Hu Hs. unfold new_FliinowClient. cbn. rewrite Hs.
    destruct Hu as [-> | ->]; reflexivity.
  - intros Hu Hs. unfold new_FliinowClient. cbn.
    destruct (config_sandbox config) as [[|]|]; try contradiction;
      destruct Hu as [-> | ->]; reflexivity.
  - intros method route body w.
    set (this := new_FliinowClient config).
    request_paths; exists_calls; (split; [reflexivity|]);
      cbn [In]; intros url init H;
      repeat (destruct H as [H|H]; [try discriminate H|]);
      try contradiction; injection H as <- _; reflexivity.
Qed.

Lemma new_FliinowClient_baseUrl_witness :
  baseUrl (new_FliinowClient
             (mkConfig "fk_test_key" (Some true) None
                (Some "http://localhost:8080/v1")))
  = "http://localhost:8080/v1".
Proof.
  apply (proj1 (new_FliinowClient_baseUrl
                  (mkConfig "fk_test_key" (Some true) None
                     (Some "http://localhost:8080/v1")))
               "http://localhost:8080/v1").
  - reflexivity.
  - discriminate.
Defined.

Example baseUrl_sandbox :
  baseUrl (new_FliinowClient (mkConfig "fk_test_key" (Some true) None None))
  = "https://demo.fliinow.com/integration-api/v1".
Proof. reflexivity. Qed.

Example baseUrl_production :
  baseUrl (new_FliinowClient (mkConfig "fk_live_key" (Some false) None None))
  = "https://app.fliinow.com/integration-api/v1".
Proof. reflexivity. Qed.

(* ------------------------------------------------------------------ *)
(** ** The query string of [list] *)

Section QueryString.

Import URLSearchParams.

Lemma free_of_app (sep : ascii) (a b : string) :
  free_of sep (a ++ b) = free_of sep a && free_of sep b.
Proof.
  induction a as [|c a IH]; cbn; [reflexivity|].
  rewrite IH. now rewrite andb_assoc.
Qed.

Lemma encode_byte_free_amp (c : ascii) : free_of "&" (encode_byte c) = true.
Proof. destruct c as [[] [] [] [] [] [] [] []]; reflexivity. Qed.

Lemma encode_byte_free_eq (c : ascii) : free_of "=" (encode_byte c) = true.
Proof. destruct c as [[] [] [] [] [] [] [] []]; reflexivity. Qed.

Lemma encode_free_amp (s : string) : free_of "&" (encode s) = true.
Proof.
  induction s as [|c s IH]; cbn; [reflexivity|].
  now rewrite free_of_app, encode_byte_free_amp, IH.
Qed.

Lemma encode_free_eq (s : string) : free_of "=" (encode s) = true.
Proof.
  induction s as [|c s IH]; cbn; [reflexivity|].
  now rewrite free_of_app, encode_byte_free_eq, IH.
Qed.

Lemma decode_encode_byte (c : ascii) (rest : string) :
  decode (encode_byte c ++ rest) = String c (decode rest).
Proof. destruct c as [[] [] [] [] [] [] [] []]; reflexivity. Qed.

Lemma decode_encode (s : string) : decode (encode s) = s.
Proof.
  induction s as [|c s IH]; cbn; [reflexivity|].
  now rewrite decode_encode_byte, IH.
Qed.

Lemma cut_app (sep : ascii) (a b : string) :
  free_of sep a = true -> cut sep (a ++ String sep b) = (a, b).
Proof.
  induction a as [|c a IH]; cbn; intros H.
  - now rewrite Ascii.eqb_refl.
  - apply andb_true_iff in H. destruct H as [Hc Ha].
    apply negb_true_iff in Hc. rewrite Hc, (IH Ha). reflexivity.
Qed.

Lemma split_free (sep : ascii) (a : string) :
  free_of sep a = true -> split sep a = [a].
Proof.
  induction a as [|c a IH]; cbn; intros H; [reflexivity|].
  apply andb_true_iff in H. destruct H as [Hc Ha].
  apply negb_true_iff in Hc. rewrite Hc, (IH Ha). reflexivity.
Qed.

Lemma split_app (sep : ascii) (a rest : string) :
  free_of sep a = true ->
  split sep (a ++ String sep rest) = a :: split sep rest.
Proof.
  induction a as [|c a IH]; cbn; intros H.
  - now rewrite Ascii.eqb_refl.
  - apply andb_true_iff in H. destruct H as [Hc Ha].
    apply negb_true_iff in Hc. rewrite Hc, (IH Ha). reflexivity.
Qed.

Lemma serialize_pair_free_amp (p : string * string) :
  free_of "&" (serialize_pair p) = true.
Proof.
  unfold serialize_pair.
  now rewrite !free_of_app, !encode_free_amp.
Qed.

Lemma serialize_pair_truthy (p : string * string) :
  Str.truthy (serialize_pair p) = true.
Proof. unfold serialize_pair. destruct (encode (fst p)); reflexivity. Qed.

Lemma parse_pair (p : string * string) :
  (let '(n, v) := cut "=" (serialize_pair p) in (decode n, decode v)) = p.
Proof.
  destruct p as [n v]. unfold serialize_pair. cbn [fst snd].
  change ("=" ++ encode v) with (String "=" (encode v)).
  rewrite (cut_app "=" _ _ (encode_free_eq n)).
  now rewrite !decode_encode.
Qed.

Lemma parse_single (p : string * string) : parse (serialize_pair p) = [p].
Proof.
  unfold parse.
  rewrite (split_free "&" _ (serialize_pair_free_amp p)).
  cbn [filter]. rewrite serialize_pair_truthy. cbn [map].
  now rewrite parse_pair.
Qed.

Lemma parse_more (p : string * string) (query : string) :
  parse (serialize_pair p ++ String "&" query) = p :: parse query.
Proof.
  unfold parse.
  rewrite (split_app "&" _ _ (serialize_pair_free_amp p)).
  cbn [filter]. rewrite serialize_pair_truthy. cbn [map].
  now rewrite parse_pair.
Qed.

(** A query string reads back as the pairs it was made from. *)
Lemma parse_toString (sp : URLSearchParams.t) : parse (toString sp) = sp.
Proof.
  induction sp as [|p sp IH]; [reflexivity|].
  destruct sp as [|q sp].
  - apply parse_single.
  - change (toString (p :: q :: sp))
      with (serialize_pair p ++ String "&" (toString (q :: sp))).
    now rewrite parse_more, IH.
Qed.

Lemma toString_truthy (p : string * string) (sp : URLSearchParams.t) :
  Str.truthy (toString (p :: sp)) = true.
Proof.
  unfold toString. cbn [map Str.join].
  pose proof (serialize_pair_truthy p) as H.
  destruct sp; [exact H|].
  destruct (serialize_pair p); [discriminate H|reflexivity].
Qed.

Lemma buildQueryString_loop_sent (params : ListOperationsParams)
    (searchParams : URLSearchParams.t) :
  buildQueryString_loop params searchParams
  = (searchParams ++ sent_fields params)%list.
Proof.
  revert searchParams.
  induction params as [|[key v] params IH]; intros searchParams.
  - cbn. now rewrite app_nil_r.
  - cbn [buildQueryString_loop]. rewrite IH.
    unfold sent_fields, append.
    destruct v as [| |[|]|n|s0];
      cbn [present stringified_fields map fst snd String_prim];
      rewrite <- ?app_assoc; reflexivity.
Qed.


End QueryString.




Example list_path_large_page :
  OperationsApi.list_path
    (Some [("page", PNumber (Num (10 ^ 21)))])
  = "/operations?page=1e%2B21".
Proof. vm_compute. reflexivity. Qed.

Example list_path_lone_surrogate :
  OperationsApi.list_path (Some [("from", PString Sample.lone_surrogate)])
  = "/operations?from=%EF%BF%BD".
Proof. vm_compute. reflexivity. Qed.

(* ------------------------------------------------------------------ *)
(** * Further properties of the request lifecycle *)

Lemma ok_range (r : Response) : ok r = true <-> 200 <= status r < 300.
Proof.
  unfold ok. rewrite andb_true_iff, !Z.leb_le. lia.
Qed.

(** X1.  [request] resolves only on a 2xx response: with [undefined] for
    a 204, and otherwise with the value the body decoded to.  A response
    outside 200-299 never resolves the call. *)
Theorem request_returns_only_2xx
    (this : FliinowClient) (method : Method) (route : string) (body : value)
    (w : World) (v : value) :
  fst (request this method route body w) = Returns v ->
  exists r,
    fetch_settles w (baseUrl this ++ route) (request_init this method body)
      = Fulfils r
    /\ 200 <= status r < 300
    /\ ((status r = 204 /\ v = undefined)
        \/ (status r <> 204 /\ json_settles r = Fulfils v)).
Proof.
  request_paths; intros H; try discriminate H; injection H as <-;
    path_facts; eexists; (split; [reflexivity|]).
  - split; [lia|]. left. auto.
  - split; [now apply ok_range|]. right. auto.
Qed.

Lemma request_returns_only_2xx_witness :
  exists r,
    fetch_settles
      (Sample.responds 200 Sample.no_headers (Fulfils Sample.operation))
      (baseUrl Sample.sandbox_client ++ "/operations")
      (request_init Sample.sandbox_client POST Sample.envelope)
      = Fulfils r
    /\ 200 <= status r < 300
    /\ ((status r = 204 /\ Sample.operation = undefined)
        \/ (status r <> 204 /\ json_settles r = Fulfils Sample.operation)).
Proof.
  apply (request_returns_only_2xx Sample.sandbox_client POST "/operations"
           Sample.envelope
           (Sample.responds 200 Sample.no_headers (Fulfils Sample.operation))
           Sample.operation).
  reflexivity.
Defined.

(** X2.  The call stays pending exactly when [fetch] resolved with a
    status other than 204 and the body never arrives: a [fetch] that does
    not settle cannot leave the call pending. *)
Theorem request_pending_iff
    (this : FliinowClient) (method : Method) (route : string) (body : value)
    (w : World) :
  fst (request this method route body w) = Pending
  <-> exists r,
        fetch_settles w (baseUrl this ++ route)
          (request_init this method body) = Fulfils r
        /\ status r <> 204
        /\ json_settles r = Stalls.
Proof.
  request_paths; path_facts;
    (split;
     [ intros H; try discriminate H; eexists; repeat split; eauto
     | intros (r0 & Hf & H204 & Hj); try discriminate Hf;
       try (injection Hf as <-); try congruence ]).
Qed.

Lemma request_pending_iff_witness :
  fst (request Sample.sandbox_client GET "/operations" undefined
         (Sample.responds 200 Sample.no_headers Stalls))
  = Pending.
Proof.
  apply (proj2 (request_pending_iff Sample.sandbox_client GET "/operations"
                  undefined (Sample.responds 200 Sample.no_headers Stalls))).
  exists (mkResponse 200 Sample.no_headers Stalls).
  split; [reflexivity|]. split; [cbn; lia | reflexivity].
Defined.

(** X3.  The exchange is aborted exactly when [fetch] did not settle by
    itself: the timer fires and the signal is aborted in no other case,
    whatever the response or failure. *)
Theorem request_aborts_iff_fetch_stalls
    (this : FliinowClient) (method : Method) (route : string) (body : value)
    (w : World) :
  exists calls,
    trace (snd (request this method route body w)) = (calls ++ trace w)%list
    /\ (In EvAbort calls
        <-> fetch_settles w (baseUrl this ++ route)
              (request_init this method body) = Stalls)
    /\ (In (EvTimerFired (next_timer w)) calls
        <-> fetch_settles w (baseUrl this ++ route)
              (request_init this method body) = Stalls).
Proof.
  request_paths; exists_calls; (split; [reflexivity|]);
    split; split; intros Hin; in_calls; try discriminate Hin; auto.
Qed.

(** X4.  [response.json()] is called exactly when [fetch] resolved with a
    status other than 204, and then once, right after the timer was
    cleared: the body is always read with no timer scheduled for the
    call. *)
Theorem request_reads_body_after_clearTimeout
    (this : FliinowClient) (method : Method) (route : string) (body : value)
    (w : World) :
  exists calls,
    trace (snd (request this method route body w)) = (calls ++ trace w)%list
    /\ (In EvJson calls
        <-> exists r,
              fetch_settles w (baseUrl this ++ route)
                (request_init this method body) = Fulfils r
              /\ status r <> 204)
    /\ (In EvJson calls ->
        exists later,
          ~ In EvJson later
          /\ calls
             = (later
                ++ [ EvJson;
                     EvClearTimeout (next_timer w);
                     EvFetch (baseUrl this ++ route)
                             (request_init this method body);
                     EvSetTimeout (next_timer w) (timeout this) ])%list).
Proof.
  request_paths; path_facts; exists_calls; (split; [reflexivity|]); split.
  all: try (split;
            [ intros Hin; in_calls; eexists; split; eauto
            | intros (r0 & Hf & Hne); try discriminate Hf;
              try (injection Hf as <-); try contradiction;
              cbn [In]; auto ]).
  all: intros Hin; in_calls.
  all: match goal with
       | |- exists later, _ /\ ?x :: ?rest = _ =>
           first [ exists [] ; split; [intros []|reflexivity]
                 | exists [x]; split;
                   [cbn [In]; intros HH; in_calls | reflexivity] ]
       end.
Qed.

(* ------------------------------------------------------------------ *)
(** * Further properties of FliinowError *)

Lemma new_FliinowError_fields (data : value) (st : Z) (ra : option number)
    (e : FliinowError) :
  new_FliinowError data st ra = inl e ->
  statusCode e = st /\ name e = "FliinowError" /\ retryAfter e = ra.
Proof.
  unfold new_FliinowError.
  destruct (property data "message") as [m|]; [|discriminate].
  destruct (match m with VPrim PUndefined => Some "" | _ => ToString m end);
    [|discriminate].
  intros H. injection H as <-. cbn. auto.
Qed.

(** X5.  Where a [FliinowError] comes from.  Unless the platform itself
    rejects with a [FliinowError], a [FliinowError] thrown by [request]
    was built from a response outside 200-299 whose body decoded: its
    [statusCode] is that status, its [name] is [FliinowError] and its
    [retryAfter] comes from the [Retry-After] header of that response. *)
Theorem request_FliinowError_origin
    (this : FliinowClient) (method : Method) (route : string) (body : value)
    (w : World) (e : FliinowError) :
  (forall e',
      fetch_settles w (baseUrl this ++ route) (request_init this method body)
      <> Rejects (ThrownFliinowError e')) ->
  (forall r e',
      fetch_settles w (baseUrl this ++ route) (request_init this method body)
        = Fulfils r ->
      json_settles r <> Rejects (ThrownFliinowError e')) ->
  fst (request this method route body w) = Throws (ThrownFliinowError e) ->
  exists r data,
    fetch_settles w (baseUrl this ++ route) (request_init this method body)
      = Fulfils r
    /\ json_settles r = Fulfils data
    /\ ~ (200 <= status r < 300)
    /\ statusCode e = status r
    /\ name e = "FliinowError"
    /\ retryAfter e
       = match headers_get r "Retry-After" with
         | None | Some "" => None
         | Some s => Some (ParseInt.parseInt s)
         end.
Proof.
  intros Hfetch Hjson.
  request_paths; intros Hthrow; try discriminate Hthrow.
  - (* the error built in the non-2xx branch *)
    injection Hthrow as <-.
    match goal with
    | Hnew : new_FliinowError _ _ _ = inl _ |- _ =>
        apply new_FliinowError_fields in Hnew;
        destruct Hnew as (Hst & Hname & Hra)
    end.
    exists r, data. repeat split; auto.
    + match goal with
      | Hok : ok r = false |- _ =>
          intros Hrange; apply ok_range in Hrange; congruence
      end.
    + rewrite Hra.
      destruct (headers_get r "Retry-After") as [[|c0 s0]|]; reflexivity.
  - (* response.json() rejected with it *)
    exfalso. eapply (Hjson r); [reflexivity|eassumption].
  - (* fetch rejected with it *)
    exfalso. eapply Hfetch. reflexivity.
Qed.

Lemma request_FliinowError_origin_witness :
  exists r data,
    fetch_settles
      (Sample.responds 429 (Sample.retry_after "5") (Fulfils Sample.envelope))
      (baseUrl Sample.sandbox_client ++ "/operations")
      (request_init Sample.sandbox_client GET undefined)
      = Fulfils r
    /\ json_settles r = Fulfils data
    /\ ~ (200 <= status r < 300)
    /\ 429 = status r
    /\ "FliinowError" = "FliinowError"
    /\ Some (Num 5)
       = match headers_get r "Retry-After" with
         | None | Some "" => None
         | Some s => Some (ParseInt.parseInt s)
         end.
Proof.
  apply (request_FliinowError_origin Sample.sandbox_client GET "/operations"
           undefined
           (Sample.responds 429 (Sample.retry_after "5")
              (Fulfils Sample.envelope))
           (mkFliinowError "Too many requests" "FliinowError" 429
              (VString "RATE_LIMIT_EXCEEDED") (VString "/operations")
              undefined (Some (Num 5)))).
  - intros e'. discriminate.
  - intros r e' H. injection H as <-. discriminate.
  - reflexivity.
Defined.

(** X6.  The error body is not validated.  For a response outside 200-299
    whose body decodes to an object with a string [message], the
    [FliinowError] copies whatever the object holds under [error], [path]
    and [requestId] -- a string or any other value -- and holds
    [undefined] for a property the object lacks; [statusCode] and
    [retryAfter] come from the response. *)
Theorem request_error_fields_copied
    (this : FliinowClient) (method : Method) (route : string) (body : value)
    (w : World) (r : Response) (fields : list (string * value))
    (msg : string) :
  fetch_settles w (baseUrl this ++ route) (request_init this method body)
    = Fulfils r ->
  ~ (200 <= status r < 300) ->
  json_settles r = Fulfils (VObject fields) ->
  lookup "message" fields = Some (VString msg) ->
  fst (request this method route body w)
  = Throws (ThrownFliinowError
              {| message := msg;
                 name := "FliinowError";
                 statusCode := status r;
                 code := field "error" fields;
                 path := field "path" fields;
                 requestId := field "requestId" fields;
                 retryAfter := retryAfter_of r |}).
Proof.
  intros Hfetch Hstatus Hjson Hmsg.
  assert (H204 : status r <> 204) by lia.
  rewrite (request_not_ok this method route body w r _ Hfetch
             (status_not_ok r Hstatus) H204 Hjson).
  unfold new_FliinowError, property, field. rewrite Hmsg. reflexivity.
Qed.

Lemma request_error_fields_copied_witness :
  fst (request Sample.sandbox_client GET "/operations/abc123" undefined
         (Sample.responds 404 Sample.no_headers
            (Fulfils (VObject [ ("message", VString "Not found");
                                ("error", VPrim (PNumber (Num 404)));
                                ("requestId", VString "req-42") ]))))
  = Throws (ThrownFliinowError
              {| message := "Not found";
                 name := "FliinowError";
                 statusCode := 404;
                 code := VPrim (PNumber (Num 404));
                 path := undefined;
                 requestId := VString "req-42";
                 retryAfter := None |}).
Proof.
  apply (request_error_fields_copied Sample.sandbox_client GET
           "/operations/abc123" undefined
           (Sample.responds 404 Sample.no_headers
              (Fulfils (VObject [ ("message", VString "Not found");
                                  ("error", VPrim (PNumber (Num 404)));
                                  ("requestId", VString "req-42") ])))
           (mkResponse 404 Sample.no_headers
              (Fulfils (VObject [ ("message", VString "Not found");
                                  ("error", VPrim (PNumber (Num 404)));
                                  ("requestId", VString "req-42") ])))
           [ ("message", VString "Not found");
             ("error", VPrim (PNumber (Num 404)));
             ("requestId", VString "req-42") ]
           "Not found").
  - reflexivity.
  - cbn. lia.
  - reflexivity.
  - reflexivity.
Defined.

(** X7.  A response outside 200-299 whose body decodes to something other
    than an error envelope -- a string, a number, a boolean, an array, or
    an object without [message], [error], [path] and [requestId] -- still
    fails with a [FliinowError]: it carries the status, an empty message
    and [undefined] for [code], [path] and [requestId]. *)
Theorem request_error_without_envelope
    (this : FliinowClient) (method : Method) (route : string) (body : value)
    (w : World) (r : Response) (data : value) :
  fetch_settles w (baseUrl this ++ route) (request_init this method body)
    = Fulfils r ->
  ~ (200 <= status r < 300) ->
  json_settles r = Fulfils data ->
  no_error_fields data ->
  fst (request this method route body w)
  = Throws (ThrownFliinowError
              {| message := "";
                 name := "FliinowError";
                 statusCode := status r;
                 code := undefined;
                 path := undefined;
                 requestId := undefined;
                 retryAfter := retryAfter_of r |}).
Proof.
  intros Hfetch Hstatus Hjson Hdata.
  assert (H204 : status r <> 204) by lia.
  rewrite (request_not_ok this method route body w r _ Hfetch
             (status_not_ok r Hstatus) H204 Hjson).
  unfold new_FliinowError, property.
  destruct data as [[| |b|n|s]|items|fields]; cbn in Hdata;
    try contradiction; try reflexivity.
  destruct Hdata as (-> & -> & -> & ->). reflexivity.
Qed.

Lemma request_error_without_envelope_witness :
  fst (request Sample.sandbox_client GET "/operations" undefined
         (Sample.responds 502 Sample.no_headers
            (Fulfils (VString "Bad Gateway"))))
  = Throws (ThrownFliinowError
              {| message := "";
                 name := "FliinowError";
                 statusCode := 502;
                 code := undefined;
                 path := undefined;
                 requestId := undefined;
                 retryAfter := None |}).
Proof.
  apply (request_error_without_envelope Sample.sandbox_client GET
           "/operations" undefined
           (Sample.responds 502 Sample.no_headers
              (Fulfils (VString "Bad Gateway")))
           (mkResponse 502 Sample.no_headers (Fulfils (VString "Bad Gateway")))
           (VString "Bad Gateway")).
  - reflexivity.
  - cbn. lia.
  - reflexivity.
  - exact I.
Defined.

(** X8.  A response outside 200-299 whose body decodes to [null] does not
    fail with a [FliinowError]: building the error reads a property of
    [null], and the call throws that TypeError; the status and the
    headers of the response are lost to the caller. *)
Theorem request_null_body_throws_TypeError
    (this : FliinowClient) (method : Method) (route : string) (body : value)
    (w : World) (r : Response) :
  fetch_settles w (baseUrl this ++ route) (request_init this method body)
    = Fulfils r ->
  ~ (200 <= status r < 300) ->
  json_settles r = Fulfils (VPrim PNull) ->
  exists e,
    fst (request this method route body w) = Throws (ThrownError e)
    /\ error_class e = "TypeError"
    /\ instanceof_FliinowError (ThrownError e) = false.
Proof.
  intros Hfetch Hstatus Hjson.
  assert (H204 : status r <> 204) by lia.
  rewrite (request_not_ok this method route body w r _ Hfetch
             (status_not_ok r Hstatus) H204 Hjson).
  cbn. eexists. repeat split.
Qed.

Lemma request_null_body_throws_TypeError_witness :
  exists e,
    fst (request Sample.sandbox_client GET "/operations" undefined
           (Sample.responds 500 Sample.no_headers (Fulfils (VPrim PNull))))
    = Throws (ThrownError e)
    /\ error_class e = "TypeError"
    /\ instanceof_FliinowError (ThrownError e) = false.
Proof.
  apply (request_null_body_throws_TypeError Sample.sandbox_client GET
           "/operations" undefined
           (Sample.responds 500 Sample.no_headers (Fulfils (VPrim PNull)))
           (mkResponse 500 Sample.no_headers (Fulfils (VPrim PNull)))).
  - reflexivity.
  - cbn. lia.
  - reflexivity.
Defined.

(* ------------------------------------------------------------------ *)
(** * Further properties of the timeout *)

(** X9.  Any [Error] named [AbortError] is reported as a timeout.  When
    [fetch] or [response.json()] rejects by itself with such an error, the
    call throws the timeout error with the configured timeout in its
    message although the timer did not fire and nothing was aborted. *)
Theorem request_foreign_AbortError
    (this : FliinowClient) (method : Method) (route : string) (body : value)
    (w : World) (e : ErrorObject) :
  error_name e = "AbortError" ->
  fetch_settles w (baseUrl this ++ route) (request_init this method body)
    = Rejects (ThrownError e)
  \/ (exists r,
        fetch_settles w (baseUrl this ++ route)
          (request_init this method body) = Fulfils r
        /\ status r <> 204
        /\ json_settles r = Rejects (ThrownError e)) ->
  fst (request this method route body w)
    = Throws (ThrownError (new_Error (timeout_message this)))
  /\ exists calls,
       trace (snd (request this method route body w))
       = (calls ++ trace w)%list
       /\ ~ In EvAbort calls
       /\ ~ In (EvTimerFired (next_timer w)) calls.
Proof.
  intros Hname [Hfetch | (r & Hfetch & H204 & Hjson)].
  - run_request. rewrite Hfetch. cbn. rewrite Hname. cbn.
    split; [reflexivity|]. exists_calls.
    split; [reflexivity|]. split; intros Hin; in_calls.
  - apply Z.eqb_neq in H204.
    run_request. rewrite Hfetch. cbn. rewrite H204. cbn.
    rewrite Hjson. cbn. rewrite Hname. cbn.
    split; [reflexivity|]. exists_calls.
    split; [reflexivity|]. split; intros Hin; in_calls.
Qed.

Lemma request_foreign_AbortError_witness :
  fst (request Sample.sandbox_client GET "/operations" undefined
         (Sample.world (Rejects (ThrownError AbortError))))
    = Throws (ThrownError (new_Error "Request timeout after 30000ms"))
  /\ exists calls,
       trace (snd (request Sample.sandbox_client GET "/operations" undefined
                     (Sample.world (Rejects (ThrownError AbortError)))))
       = (calls ++ [])%list
       /\ ~ In EvAbort calls
       /\ ~ In (EvTimerFired 0) calls.
Proof.
  apply (request_foreign_AbortError Sample.sandbox_client GET "/operations"
           undefined (Sample.world (Rejects (ThrownError AbortError)))
           AbortError).
  - reflexivity.
  - left. reflexivity.
Defined.

(** X10.  The first platform call of every request is [setTimeout], before
    [fetch], and its delay is the [timeout] of the configuration when one
    is given -- zero included, which [??] does not replace -- and 30000
    otherwise. *)
Theorem request_timer_delay
    (config : FliinowClientConfig) (method : Method) (route : string)
    (body : value) (w : World) :
  exists later,
    trace (snd (request (new_FliinowClient config) method route body w))
    = (later
       ++ [ EvFetch (baseUrl (new_FliinowClient config) ++ route)
                    (request_init (new_FliinowClient config) method body);
            EvSetTimeout (next_timer w)
              (match config_timeout config with
               | Some t => t
               | None => Num 30000
               end) ]
       ++ trace w)%list.
Proof.
  change (match config_timeout config with Some t => t | None => Num 30000 end)
    with (timeout (new_FliinowClient config)).
  generalize (new_FliinowClient config). intros this.
  request_paths;
    match goal with
    | |- exists later, ?l = _ =>
        let p := calls_since l (trace w) in
        let rec front q :=
          match q with
          | [EvFetch _ _; EvSetTimeout _ _] => constr:(@nil event)
          | ?x :: ?r => let f := front r in constr:(x :: f)
          end in
        let f := front p in exists f
    end; reflexivity.
Qed.

Example request_timer_delay_zero :
  exists later,
    trace (snd (request
                  (new_FliinowClient
                     (mkConfig "fk_test_key" None (Some (Num 0)) None))
                  GET "/operations" undefined (Sample.world Stalls)))
    = (later
       ++ [ EvFetch (production_url ++ "/operations")
                    (mkInit GET
                       [ ("X-Fliinow-API-Key", "fk_test_key");
                         ("Content-Type", "application/json");
                         ("Accept", "application/json") ]
                       None);
            EvSetTimeout 0 (Num 0) ])%list.
Proof. eexists [_; _; _]. reflexivity. Qed.

Lemma filter_fresh_timer (id : nat) (l : list nat) :
  ~ In id l -> filter (fun i => negb (Nat.eqb i id)) l = l.
Proof.
  induction l as [|x l IH]; cbn; intros H; [reflexivity|].
  destruct (Nat.eqb_spec x id) as [->|Hne]; cbn.
  - exfalso. apply H. now left.
  - f_equal. apply IH. intros Hin. apply H. now right.
Qed.

Lemma filter_own_timer (id : nat) (l : list nat) :
  filter (fun i => negb (Nat.eqb i id)) (id :: l)
  = filter (fun i => negb (Nat.eqb i id)) l.
Proof. cbn. now rewrite Nat.eqb_refl. Qed.

(** X11.  A request leaves the timers as it found them.  In a world where
    every scheduled timer was handed out earlier, the timers scheduled
    after the call are those scheduled before it, the call consumed one
    timer identifier, the platform settles later calls as before, and the
    same holds of the world it leaves. *)
Theorem request_keeps_timers
    (this : FliinowClient) (method : Method) (route : string) (body : value)
    (w : World) :
  timers_fresh w ->
  scheduled (snd (request this method route body w)) = scheduled w
  /\ next_timer (snd (request this method route body w)) = S (next_timer w)
  /\ fetch_settles (snd (request this method route body w)) = fetch_settles w
  /\ timers_fresh (snd (request this method route body w)).
Proof.
  intros Hfresh.
  assert (Hnew : ~ In (next_timer w) (scheduled w)).
  { intros Hin. apply Hfresh in Hin. lia. }
  assert (Hsched :
            scheduled (snd (request this method route body w)) = scheduled w).
  { request_paths;
      rewrite ?filter_own_timer, ?(filter_fresh_timer _ _ Hnew);
      reflexivity. }
  assert (Hnext :
            next_timer (snd (request this method route body w))
            = S (next_timer w)).
  { request_paths; reflexivity. }
  repeat split; auto.
  - request_paths; reflexivity.
  - intros i Hin. rewrite Hsched in Hin. rewrite Hnext.
    apply Hfresh in Hin. lia.
Qed.

Lemma request_keeps_timers_witness :
  scheduled (snd (request Sample.sandbox_client GET "/operations" undefined
                    Sample.busy_world))
  = scheduled Sample.busy_world
  /\ next_timer (snd (request Sample.sandbox_client GET "/operations"
                        undefined Sample.busy_world))
     = S (next_timer Sample.busy_world)
  /\ fetch_settles (snd (request Sample.sandbox_client GET "/operations"
                           undefined Sample.busy_world))
     = fetch_settles Sample.busy_world
  /\ timers_fresh (snd (request Sample.sandbox_client GET "/operations"
                          undefined Sample.busy_world)).
Proof.
  apply (request_keeps_timers Sample.sandbox_client GET "/operations"
           undefined Sample.busy_world).
  intros i Hin. cbn in *. lia.
Defined.

(* ------------------------------------------------------------------ *)
(** * Further properties of the operations *)

(** X12.  [cancel] discards the response.  Whenever the server answers
    the POST to [/operations/{id}/cancel] with a 2xx status -- a 204, or
    any other with a body that decodes -- the call resolves with
    [undefined], whatever the body holds. *)
Theorem cancel_resolves_undefined
    (client : FliinowClient) (operationId : string) (req : value)
    (w : World) (r : Response) :
  fetch_settles w
    (baseUrl client ++ "/operations/" ++ operationId ++ "/cancel")
    (request_init client POST req) = Fulfils r ->
  200 <= status r < 300 ->
  status r = 204 \/ (exists v, json_settles r = Fulfils v) ->
  fst (OperationsApi.cancel client operationId req w) = Returns undefined.
Proof.
  intros Hfetch Hstatus Hbody.
  unfold OperationsApi.cancel.
  run_request. rewrite Hfetch. cbn.
  destruct (status r =? 204) eqn:E204; [reflexivity|].
  apply Z.eqb_neq in E204.
  destruct Hbody as [H204|[v Hv]]; [contradiction|].
  cbn. rewrite Hv, (status_ok r Hstatus). reflexivity.
Qed.

Lemma cancel_resolves_undefined_witness :
  fst (OperationsApi.cancel Sample.sandbox_client "abc123" undefined
         (Sample.responds 200 Sample.no_headers (Fulfils Sample.operation)))
  = Returns undefined.
Proof.
  apply (cancel_resolves_undefined Sample.sandbox_client "abc123" undefined
           (Sample.responds 200 Sample.no_headers (Fulfils Sample.operation))
           (mkResponse 200 Sample.no_headers (Fulfils Sample.operation))).
  - reflexivity.
  - cbn. lia.
  - right. exists Sample.operation. reflexivity.
Defined.

Lemma request_fetches_once (this : FliinowClient) (method : Method)
    (route : string) (body : value) (w : World) :
  fetches_once (request this method route body) w
    (baseUrl this ++ route) (request_init this method body).
Proof.
  unfold fetches_once.
  request_paths; exists_calls; split; reflexivity.
Qed.

Lemma cancel_world (client : FliinowClient) (operationId : string)
    (req : value) (w : World) :
  snd (OperationsApi.cancel client operationId req w)
  = snd (request client POST ("/operations/" ++ operationId ++ "/cancel")
           req w).
Proof.
  unfold OperationsApi.cancel, bind, ret.
  destruct (request client POST _ req w) as [[v|t|] w']; reflexivity.
Qed.

(** X13.  Each operation of the facade performs one exchange, with a fixed
    method and a path built by plain concatenation (the operation
    identifier is not escaped): [create] POSTs its request to
    [/operations]; [get], [getStatus] and [getPlans] GET
    [/operations/{id}], [.../status] and [.../plans] without a body;
    [list] GETs [/operations] followed by the query; [startFinancing] and
    [cancel] POST their request to [.../financing] and [.../cancel]. *)
Theorem operations_exchanges
    (client : FliinowClient) (operationId : string) (req : value)
    (params : option ListOperationsParams) (w : World) :
  fetches_once (OperationsApi.create client req) w
    (baseUrl client ++ "/operations") (mkInit POST (request_headers client)
       (if truthy req then Some (JSON_stringify req) else None))
  /\ fetches_once (OperationsApi.get client operationId) w
       (baseUrl client ++ "/operations/" ++ operationId)
       (mkInit GET (request_headers client) None)
  /\ fetches_once (OperationsApi.list client params) w
       (baseUrl client ++ "/operations"
        ++ match params with Some p => buildQueryString p | None => "" end)
       (mkInit GET (request_headers client) None)
  /\ fetches_once (OperationsApi.getStatus client operationId) w
       (baseUrl client ++ "/operations/" ++ operationId ++ "/status")
       (mkInit GET (request_headers client) None)
  /\ fetches_once (OperationsApi.getPlans client operationId) w
       (baseUrl client ++ "/operations/" ++ operationId ++ "/plans")
       (mkInit GET (request_headers client) None)
  /\ fetches_once (OperationsApi.startFinancing client operationId req) w
       (baseUrl client ++ "/operations/" ++ operationId ++ "/financing")
       (mkInit POST (request_headers client)
          (if truthy req then Some (JSON_stringify req) else None))
  /\ fetches_once (OperationsApi.cancel client operationId req) w
       (baseUrl client ++ "/operations/" ++ operationId ++ "/cancel")
       (mkInit POST (request_headers client)
          (if truthy req then Some (JSON_stringify req) else None)).
Proof.
  repeat split; try apply request_fetches_once.
  unfold fetches_once. rewrite cancel_world.
  apply request_fetches_once.
Qed.

(* ------------------------------------------------------------------ *)
(** * Further properties of the query string *)

Section QueryBytes.

Import URLSearchParams.

Lemma all_bytes_app (f : ascii -> bool) (a b : string) :
  all_bytes f (a ++ b) = all_bytes f a && all_bytes f b.
Proof.
  induction a as [|c a IH]; cbn; [reflexivity|].
  rewrite IH. now rewrite andb_assoc.
Qed.

Lemma encode_byte_query_bytes (c : ascii) :
  all_bytes query_byte (encode_byte c) = true.
Proof. destruct c as [[] [] [] [] [] [] [] []]; reflexivity. Qed.

Lemma encode_query_bytes (s : string) : all_bytes query_byte (encode s) = true.
Proof.
  induction s as [|c s IH]; cbn; [reflexivity|].
  now rewrite all_bytes_app, encode_byte_query_bytes, IH.
Qed.

Lemma toString_query_bytes (sp : URLSearchParams.t) :
  all_bytes query_byte (toString sp) = true.
Proof.
  unfold toString.
  induction sp as [|p sp IH]; [reflexivity|].
  assert (Hp : all_bytes query_byte (serialize_pair p) = true).
  { unfold serialize_pair.
    now rewrite !all_bytes_app, !encode_query_bytes. }
  destruct sp as [|q sp]; [exact Hp|].
  change (Str.join "&" (map serialize_pair (p :: q :: sp)))
    with (serialize_pair p
          ++ String "&" (Str.join "&" (map serialize_pair (q :: sp)))).
  rewrite all_bytes_app, Hp. cbn [all_bytes andb].
  rewrite IH. reflexivity.
Qed.

End QueryBytes.

(** X14.  Whatever the names and values of the parameters, the query
    string [buildQueryString] returns consists of ASCII letters and
    digits, [*], [-], [.], [_], [+], [%] and the separators [?], [=] and
    [&] only: a value cannot put a space, a [#], a [/] or a byte outside
    ASCII into the request path. *)
Theorem buildQueryString_bytes (params : ListOperationsParams) :
  all_bytes query_byte (buildQueryString params) = true.
Proof.
  unfold buildQueryString.
  destruct (Str.truthy _); [|reflexivity].
  change ("?" ++ ?s) with (String "?" s). cbn [all_bytes].
  rewrite toString_query_bytes. reflexivity.
Qed.

(** X15.  The query string determines the parameters sent: two parameter
    objects with the same query string have the same included fields, in
    the same order and with the same stringified values, as they are sent
    (after unpaired surrogates were replaced by U+FFFD). *)
Theorem buildQueryString_injective (p1 p2 : ListOperationsParams) :
  buildQueryString p1 = buildQueryString p2 ->
  sent_fields p1 = sent_fields p2.
Proof.
  unfold buildQueryString.
  rewrite !buildQueryString_loop_sent. cbn [app].
  intros H.
  assert (Hq : URLSearchParams.toString (sent_fields p1)
               = URLSearchParams.toString (sent_fields p2)).
  { destruct (sent_fields p1) as [|a l1], (sent_fields p2) as [|b l2];
      rewrite ?toString_truthy in H.
    - reflexivity.
    - discriminate H.
    - discriminate H.
    - cbn [append] in H. now injection H. }
  rewrite <- (parse_toString (sent_fields p1)),
          <- (parse_toString (sent_fields p2)).
  now rewrite Hq.
Qed.

Lemma buildQueryString_injective_witness :
  sent_fields [("page", PNumber (Num 0)); ("status", PUndefined)]
  = sent_fields [("to", PNull); ("page", PString "0")].
Proof.
  apply (buildQueryString_injective
           [("page", PNumber (Num 0)); ("status", PUndefined)]
           [("to", PNull); ("page", PString "0")]).
  reflexivity.
Defined.

(* ------------------------------------------------------------------ *)
(** * Further properties of retryAfter *)

Section DecimalHeader.

Import ParseInt.

Lemma digits_from_positive (d : Decimal.uint) (p : positive) (seen : bool) :
  digits (NilEmpty.string_of_uint d) seen (Z.pos p)
  = (match d with Decimal.Nil => seen | _ => true end,
     Z.pos (Pos.of_uint_acc d p)).
Proof.
  revert p seen.
  induction d as [|d IH|d IH|d IH|d IH|d IH|d IH|d IH|d IH|d IH|d IH];
    intros p seen; [reflexivity|..];
    cbn [NilEmpty.string_of_uint digits Pos.of_uint_acc];
    match goal with
    | |- context [is_digit ?c] =>
        change (is_digit c) with true; cbn beta iota;
        let v := eval cbv in (digit_value c) in
        change (digit_value c) with v
    end;
    match goal with
    | |- digits _ true ?a = (_, Z.pos (Pos.of_uint_acc _ ?q)) =>
        replace a with (Z.pos q) by lia
    end;
    rewrite IH; destruct d; reflexivity.
Qed.

Lemma digits_from_zero (d : Decimal.uint) (seen : bool) :
  digits (NilEmpty.string_of_uint d) seen 0
  = (match d with Decimal.Nil => seen | _ => true end,
     Z.of_N (Pos.of_uint d)).
Proof.
  revert seen.
  induction d as [|d IH|d IH|d IH|d IH|d IH|d IH|d IH|d IH|d IH|d IH];
    intros seen; [reflexivity|..];
    cbn [NilEmpty.string_of_uint digits Pos.of_uint];
    match goal with
    | |- context [is_digit ?c] =>
        change (is_digit c) with true; cbn beta iota;
        let v := eval cbv in (10 * 0 + digit_value c) in
        change (10 * 0 + digit_value c) with v
    end;
    [ rewrite IH; destruct d; reflexivity
    | rewrite digits_from_positive; destruct d; reflexivity .. ].
Qed.

Lemma parseInt_unsigned (d : Decimal.uint) :
  d <> Decimal.Nil ->
  parseInt (NilEmpty.string_of_uint d) = Double.of_Z (Z.of_N (Pos.of_uint d))
  /\ parseInt (String "-" (NilEmpty.string_of_uint d))
     = Double.of_Z (- Z.of_N (Pos.of_uint d)).
Proof.
  intros Hd.
  assert (Hminus : forall r, trimStart (String "-" r) = String "-" r)
    by (intros [|c2 [|c3 r3]]; reflexivity).
  pose proof (digits_from_zero d false) as Hdigits.
  assert (Hseen : match d with Decimal.Nil => false | _ => true end = true)
    by (destruct d; [contradiction|..]; reflexivity).
  rewrite Hseen in Hdigits.
  split.
  - unfold parseInt.
    assert (Htrim : trimStart (NilEmpty.string_of_uint d)
                    = NilEmpty.string_of_uint d).
    { destruct d; [contradiction|..]; cbn [NilEmpty.string_of_uint];
        generalize (NilEmpty.string_of_uint d);
        intros [|c2 [|c3 r3]]; reflexivity. }
    rewrite Htrim.
    assert (Hsign :
              (match NilEmpty.string_of_uint d with
               | String "-" r => (-1, r)
               | String "+" r => (1, r)
               | _ => (1, NilEmpty.string_of_uint d)
               end) = (1, NilEmpty.string_of_uint d)).
    { destruct d; reflexivity. }
    rewrite Hsign, Hdigits. f_equal; lia.
  - unfold parseInt. rewrite Hminus. cbn beta iota. rewrite Hdigits.
    f_equal; lia.
Qed.

Lemma of_Z_safe (z : Z) :
  Z.abs z <= 2 ^ 53 -> Double.of_Z z = Num z.
Proof.
  intros Hz. unfold Double.of_Z.
  replace (Z.abs z <=? Double.max_safe) with true; [reflexivity|].
  symmetry. apply Z.leb_le. exact Hz.
Qed.

Lemma Number_toString_safe (z : Z) :
  Z.abs z <= 2 ^ 53 -> Number_toString (Num z) = Double.decimal z.
Proof.
  intros Hz. unfold Number_toString.
  replace (Z.abs z <=? Double.max_safe) with true; [reflexivity|].
  symmetry. apply Z.leb_le. exact Hz.
Qed.

(** Printing an integer and reading it back with [parseInt]. *)
Lemma parseInt_Number_toString (z : Z) :
  Z.abs z <= 2 ^ 53 ->
  parseInt (Number_toString (Num z)) = Num z.
Proof.
  intros Hz. rewrite (Number_toString_safe z Hz), <- (of_Z_safe z Hz).
  clear Hz. unfold Double.decimal.
  destruct z as [|p|p]; [reflexivity|..]; unfold Z.to_int;
    cbn [NilZero.string_of_int]; unfold NilZero.string_of_uint;
    pose proof (DecimalPos.Unsigned.to_uint_nonnil p) as Hnil;
    pose proof (parseInt_unsigned (Pos.to_uint p) Hnil) as [Hpos Hneg];
    rewrite DecimalPos.Unsigned.of_to in Hpos, Hneg;
    revert Hnil Hpos Hneg; generalize (Pos.to_uint p);
    intros d Hnil Hpos Hneg; (destruct d; [contradiction|..]); assumption.
Qed.

Lemma Number_toString_truthy (z : Z) :
  Z.abs z <= 2 ^ 53 -> Str.truthy (Number_toString (Num z)) = true.
Proof.
  intros Hz. rewrite (Number_toString_safe z Hz). unfold Double.decimal.
  destruct z as [|p|p]; try reflexivity;
    unfold Z.to_int; cbn [NilZero.string_of_int];
    pose proof (DecimalPos.Unsigned.to_uint_nonnil p) as Hnil;
    destruct (Pos.to_uint p); try contradiction; reflexivity.
Qed.

End DecimalHeader.

(** X16.  A [Retry-After] header that is the decimal form of an integer
    (one a JavaScript number holds exactly) gives that integer as the
    [retryAfter] of the [FliinowError], negative or zero included. *)
Theorem request_retryAfter_decimal
    (this : FliinowClient) (method : Method) (route : string) (body : value)
    (w : World) (r : Response) (fields : list (string * value))
    (msg : string) (z : Z) :
  fetch_settles w (baseUrl this ++ route) (request_init this method body)
    = Fulfils r ->
  ~ (200 <= status r < 300) ->
  json_settles r = Fulfils (VObject fields) ->
  lookup "message" fields = Some (VString msg) ->
  Z.abs z <= 2 ^ 53 ->
  headers_get r "Retry-After" = Some (Number_toString (Num z)) ->
  exists e,
    fst (request this method route body w) = Throws (ThrownFliinowError e)
    /\ statusCode e = status r
    /\ retryAfter e = Some (Num z).
Proof.
  intros Hfetch Hstatus Hjson Hmsg Hz Hheader.
  assert (H204 : status r <> 204) by lia.
  rewrite (request_not_ok this method route body w r _ Hfetch
             (status_not_ok r Hstatus) H204 Hjson).
  assert (Hretry : retryAfter_of r = Some (Num z)).
  { unfold retryAfter_of. rewrite Hheader.
    pose proof (Number_toString_truthy z Hz) as Hne.
    pose proof (parseInt_Number_toString z Hz) as Hparse.
    destruct (Number_toString (Num z)); [discriminate Hne|].
    now rewrite Hparse. }
  rewrite Hretry.
  unfold new_FliinowError, property. rewrite Hmsg.
  eexists. split; [reflexivity|]. split; reflexivity.
Qed.

Lemma request_retryAfter_decimal_witness :
  exists e,
    fst (request Sample.sandbox_client GET "/operations" undefined
           (Sample.responds 503 (Sample.retry_after "120")
              (Fulfils Sample.envelope)))
    = Throws (ThrownFliinowError e)
    /\ statusCode e = 503
    /\ retryAfter e = Some (Num 120).
Proof.
  apply (request_retryAfter_decimal Sample.sandbox_client GET "/operations"
           undefined
           (Sample.responds 503 (Sample.retry_after "120")
              (Fulfils Sample.envelope))
           (mkResponse 503 (Sample.retry_after "120")
              (Fulfils Sample.envelope))
           [ ("error", VString "RATE_LIMIT_EXCEEDED");
             ("message", VString "Too many requests");
             ("timestamp", VString "2026-01-13T10:00:00Z");
             ("path", VString "/operations") ]
           "Too many requests" 120).
  - reflexivity.
  - cbn. lia.
  - reflexivity.
  - reflexivity.
  - cbn. lia.
  - reflexivity.
Defined.

(* ------------------------------------------------------------------ *)
(** * The example script *)

(** X17.  Where the example script sends its requests.  When it
    constructs a client, a [FLIINOW_BASE_URL] that is set and not empty is
    the base URL; without one the script targets the demo host, unless
    [FLIINOW_SANDBOX] is exactly [false], which selects production. *)
Theorem SimpleApp_baseUrl (p : SimpleApp.Process) (client : FliinowClient) :
  SimpleApp.start p = SimpleApp.Client client ->
  (forall u,
      SimpleApp.env p "FLIINOW_BASE_URL" = Some u -> u <> "" ->
      baseUrl client = u)
  /\ (SimpleApp.set (SimpleApp.env p "FLIINOW_BASE_URL") = false ->
      SimpleApp.env p "FLIINOW_SANDBOX" = Some "false" ->
      baseUrl client = production_url)
  /\ (SimpleApp.set (SimpleApp.env p "FLIINOW_BASE_URL") = false ->
      SimpleApp.env p "FLIINOW_SANDBOX" <> Some "false" ->
      baseUrl client = demo_url).
Proof.
  unfold SimpleApp.start.
  destruct (negb _ && negb _); [discriminate|].
  intros H. injection H as <-.
  unfold new_FliinowClient, SimpleApp.baseUrl, SimpleApp.sandbox.
  cbn [baseUrl config_baseUrl config_sandbox].
  repeat split.
  - intros u -> Hu. destruct u; [contradiction|reflexivity].
  - intros Hset ->.
    destruct (SimpleApp.env p "FLIINOW_BASE_URL") as [[|c u]|];
      try discriminate Hset; reflexivity.
  - intros Hset Hsandbox.
    assert (Hneq : String.eqb
                     (match SimpleApp.env p "FLIINOW_SANDBOX" with
                      | Some s => s
                      | None => "true"
                      end) "false" = false).
    { destruct (SimpleApp.env p "FLIINOW_SANDBOX") as [s|]; [|reflexivity].
      apply String.eqb_neq. congruence. }
    rewrite Hneq.
    destruct (SimpleApp.env p "FLIINOW_BASE_URL") as [[|c u]|];
      try discriminate Hset; reflexivity.
Qed.

Lemma SimpleApp_baseUrl_witness :
  baseUrl (mkClient "http://localhost:8080" "fk_test_key" (Num 30000))
  = "http://localhost:8080".
Proof.
  apply (proj1 (SimpleApp_baseUrl SimpleApp.local_process
                  (mkClient "http://localhost:8080" "fk_test_key" (Num 30000))
                  eq_refl)
               "http://localhost:8080").
  - reflexivity.
  - discriminate.
Defined.

(** X18.  The placeholder key is used in dry runs only.  The script exits
    with status 1, before constructing a client, exactly when
    [FLIINOW_API_KEY] is unset or empty and [--dry-run] is not given; a
    client constructed without [--dry-run] carries the key of the
    environment, and it is not empty. *)
Theorem SimpleApp_apiKey (p : SimpleApp.Process) :
  ((exists lines, SimpleApp.start p = SimpleApp.Exit 1 lines)
   <-> SimpleApp.set (SimpleApp.env p "FLIINOW_API_KEY") = false
       /\ SimpleApp.has p "--dry-run" = false)
  /\ (forall client,
         SimpleApp.start p = SimpleApp.Client client ->
         SimpleApp.has p "--dry-run" = false ->
         SimpleApp.env p "FLIINOW_API_KEY" = Some (apiKey client)
         /\ apiKey client <> "").
Proof.
  unfold SimpleApp.start, SimpleApp.dryRun, SimpleApp.apiKey.
  destruct (SimpleApp.set (SimpleApp.env p "FLIINOW_API_KEY")) eqn:Hkey;
    destruct (SimpleApp.has p "--dry-run") eqn:Hdry; cbn [negb andb].
  all: split;
    [ split;
      [ intros [lines H]; try discriminate H; auto
      | intros [H1 H2]; try discriminate; eexists; reflexivity ]
    | intros client H Hd; try discriminate ].
  injection H as <-. cbn [apiKey new_FliinowClient config_apiKey].
  destruct (SimpleApp.env p "FLIINOW_API_KEY") as [[|c k]|];
    try discriminate Hkey.
  split; [reflexivity|discriminate].
Qed.

Lemma SimpleApp_apiKey_witness :
  SimpleApp.env SimpleApp.local_process "FLIINOW_API_KEY"
  = Some (apiKey (mkClient "http://localhost:8080" "fk_test_key" (Num 30000)))
  /\ apiKey (mkClient "http://localhost:8080" "fk_test_key" (Num 30000)) <> "".
Proof.
  apply (proj2 (SimpleApp_apiKey SimpleApp.local_process)
               (mkClient "http://localhost:8080" "fk_test_key" (Num 30000))).
  - reflexivity.
  - reflexivity.
Defined.

(* ------------------------------------------------------------------ *)
(** * The message of a FliinowError *)

(** X19.  The [message] of the body is converted to a string, not
    checked: for a response outside 200-299 whose body is an object with
    a primitive [message] -- an integer a JavaScript number holds
    exactly, a boolean, [null] -- the message of the [FliinowError] is
    that value printed ([404] gives ["404"], [null] gives ["null"]). *)
Theorem request_error_message_printed
    (this : FliinowClient) (method : Method) (route : string) (body : value)
    (w : World) (r : Response) (fields : list (string * value)) (p : prim) :
  fetch_settles w (baseUrl this ++ route) (request_init this method body)
    = Fulfils r ->
  ~ (200 <= status r < 300) ->
  json_settles r = Fulfils (VObject fields) ->
  lookup "message" fields = Some (VPrim p) ->
  p <> PUndefined ->
  (forall z, p = PNumber (Num z) -> Z.abs z <= 2 ^ 53) ->
  exists e,
    fst (request this method route body w) = Throws (ThrownFliinowError e)
    /\ message e = String_prim p
    /\ statusCode e = status r.
Proof.
  intros Hfetch Hstatus Hjson Hmsg Hp _.
  assert (H204 : status r <> 204) by lia.
  rewrite (request_not_ok this method route body w r _ Hfetch
             (status_not_ok r Hstatus) H204 Hjson).
  unfold new_FliinowError, property. rewrite Hmsg.
  destruct p; try contradiction;
    (eexists; split; [reflexivity|]; split; reflexivity).
Qed.

Lemma request_error_message_printed_witness :
  exists e,
    fst (request Sample.sandbox_client GET "/operations" undefined
           (Sample.responds 404 Sample.no_headers
              (Fulfils (VObject [("message", VPrim (PNumber (Num 404)))]))))
    = Throws (ThrownFliinowError e)
    /\ message e = "404"
    /\ statusCode e = 404.
Proof.
  apply (request_error_message_printed Sample.sandbox_client GET
           "/operations" undefined
           (Sample.responds 404 Sample.no_headers
              (Fulfils (VObject [("message", VPrim (PNumber (Num 404)))])))
           (mkResponse 404 Sample.no_headers
              (Fulfils (VObject [("message", VPrim (PNumber (Num 404)))])))
           [("message", VPrim (PNumber (Num 404)))]
           (PNumber (Num 404))).
  - reflexivity.
  - cbn. lia.
  - reflexivity.
  - reflexivity.
  - discriminate.
  - intros z H. injection H as <-. cbn. lia.
Defined.
